(** * Resume-analysis request translator: the three serverless handlers

    Shallow embedding of the three JavaScript handlers of the repository

    - [Pages.onRequestPost]  (functions/api/getAnalysis.js, Cloudflare Pages Function),
    - [Vercel.handler]       (untitled folder 9/API/gtAnalysis.js, Vercel function),
    - [Worker.onRequest]     (untitled folder 9/functions:/api:/getAnalysis.js, Cloudflare Worker),

    over a small model of the JavaScript values they manipulate, and the
    properties of the request/response translation proved about them. *)

From Stdlib Require Import String Ascii List ZArith Bool Lia.
Import ListNotations.
Open Scope string_scope.
Set Warnings "-register-all".

(** ** JavaScript values and the primitive operations the handlers use *)

Module JS.

(** A JSON-shaped JavaScript value.  A number is carried by the two things
    the handlers can observe of it: whether it is zero, which is its
    truthiness, and its rendering by ToString (so that [1e21] is
    [JNum false "1e+21"] and [0.5] is [JNum false "0.5"]).  Objects are
    association lists read at their first matching key. *)
Inductive JsVal : Type :=
| JUndefined
| JNull
| JBool (b : bool)
| JNum (zero : bool) (text : string)
| JStr (s : string)
| JArr (items : list JsVal)
| JObj (props : list (string * JsVal)).

(** ToBoolean: what [if (v)], [!v], [a && b] and [a || b] test. *)
Definition truthy (v : JsVal) : bool :=
  match v with
  | JUndefined | JNull => false
  | JBool b => b
  | JNum zero _ => negb zero
  | JStr s => negb (s =? "")
  | JArr _ | JObj _ => true
  end.

Definition nullish (v : JsVal) : bool :=
  match v with
  | JUndefined | JNull => true
  | _ => false
  end.

(** [a || b] *)
Definition js_or (a b : JsVal) : JsVal := if truthy a then a else b.

(** [v === 'literal'], as used by [switch] and the tools selector. *)
Definition strict_eq_str (v : JsVal) (s : string) : bool :=
  match v with
  | JStr x => x =? s
  | _ => false
  end.

Fixpoint lookup (k : string) (props : list (string * JsVal)) : JsVal :=
  match props with
  | [] => JUndefined
  | (k', v) :: rest => if k' =? k then v else lookup k rest
  end.

(** Reading the named property [k] of a value that is not nullish.  None of
    the names the handlers read is a built-in property of a string, number,
    boolean or array, so only objects answer with something defined. *)
Definition get (v : JsVal) (k : string) : JsVal :=
  match v with
  | JObj props => lookup k props
  | _ => JUndefined
  end.

(** Reading element [0] of a value that is not nullish. *)
Definition first (v : JsVal) : JsVal :=
  match v with
  | JArr items => nth 0 items JUndefined
  | JStr (String c _) => JStr (String c EmptyString)
  | JObj props => lookup "0" props
  | _ => JUndefined
  end.

(** Optional chaining: [v?.k] and [v?.[0]]. *)
Definition opt_get (v : JsVal) (k : string) : JsVal :=
  if nullish v then JUndefined else get v k.

Definition opt_first (v : JsVal) : JsVal :=
  if nullish v then JUndefined else first v.

(** ** Thrown errors and completions *)

Inductive ErrorName := Error | TypeError | SyntaxError.

Record Thrown : Type := mkThrown { name : ErrorName; message : string }.

(** An evaluation either completes normally or throws. *)
Inductive Completion (A : Type) : Type :=
| Normal (a : A)
| Throw (e : Thrown).
Arguments Normal {A} a.
Arguments Throw {A} e.

Definition type_error {A} (msg : string) : Completion A :=
  Throw (mkThrown TypeError msg).

(** Sequencing of completions, for code that throws but touches no world. *)
Definition and_then {A B} (c : Completion A) (k : A -> Completion B) : Completion B :=
  match c with
  | Normal a => k a
  | Throw e => Throw e
  end.

(** The object has an own property named [k]. *)
Definition own_property (k : string) (props : list (string * JsVal)) : bool :=
  existsb (fun p => fst p =? k) props.

(** ToString, as applied by a template literal and by [new Error(v)].

    An object is converted through its [toString] method.  That is the one of
    [Object.prototype], which answers "[object Object]", unless the object
    has an own property of that name: in a value parsed from JSON such a
    property is never a function, [valueOf] yields no primitive either, and
    the conversion throws a TypeError.  An array joins the conversions of its
    elements with commas, [null] and [undefined] giving the empty string; the
    conversion of an element may throw. *)
Fixpoint to_string (v : JsVal) : Completion string :=
  match v with
  | JUndefined => Normal "undefined"
  | JNull => Normal "null"
  | JBool true => Normal "true"
  | JBool false => Normal "false"
  | JNum _ text => Normal text
  | JStr s => Normal s
  | JArr items =>
      and_then
        ((fix each (xs : list JsVal) : Completion (list string) :=
            match xs with
            | [] => Normal []
            | x :: rest =>
                and_then
                  match x with
                  | JUndefined | JNull => Normal EmptyString
                  | _ => to_string x
                  end
                  (fun s => and_then (each rest) (fun ss => Normal (s :: ss)))
            end) items)
        (fun texts => Normal (String.concat "," texts))
  | JObj props =>
      if own_property "toString" props
      then type_error "Cannot convert object to primitive value"
      else Normal "[object Object]"
  end.

(** How an error message names a nullish value. *)
Definition nullish_text (v : JsVal) : string :=
  match v with
  | JNull => "null"
  | _ => "undefined"
  end.

(** [s.replace(pat, rep)] with a string pattern: the first occurrence only. *)
Fixpoint drop (n : nat) (s : string) : string :=
  match n, s with
  | O, _ => s
  | S _, EmptyString => EmptyString
  | S n', String _ s' => drop n' s'
  end.

Fixpoint replace_first (pat rep s : string) : string :=
  if String.prefix pat s then rep ++ drop (String.length pat) s
  else match s with
       | EmptyString => EmptyString
       | String c s' => String c (replace_first pat rep s')
       end.

(** What a client reads back from [JSON.stringify v]: a property whose value
    is [undefined] is left out, an [undefined] array element becomes [null]. *)
Fixpoint serialized (v : JsVal) : JsVal :=
  match v with
  | JArr items =>
      JArr (map (fun x => match x with
                          | JUndefined => JNull
                          | _ => serialized x
                          end) items)
  | JObj props =>
      JObj ((fix keep (ps : list (string * JsVal)) : list (string * JsVal) :=
               match ps with
               | [] => []
               | (k, x) :: rest =>
                   match x with
                   | JUndefined => keep rest
                   | _ => (k, serialized x) :: keep rest
                   end
               end) props)
  | _ => v
  end.

(** The keys of an object, in order; [[]] for anything else. *)
Definition keys (v : JsVal) : list string :=
  match v with
  | JObj props => map fst props
  | _ => []
  end.

(** ** The handler monad

    A handler runs against a world that records every upstream call it issues
    and every diagnostic it logs; a computation either completes normally or
    throws. *)

Inductive LogArg := LogValue (v : JsVal) | LogThrown (e : Thrown).

Record World (Call : Type) : Type := mkWorld {
  calls : list Call;
  console : list (string * LogArg)
}.
Arguments mkWorld {Call} calls console.
Arguments calls {Call} w.
Arguments console {Call} w.

Definition start {Call : Type} : World Call := mkWorld [] [].

Definition M (Call A : Type) : Type := World Call -> Completion A * World Call.

Definition ret {Call A} (a : A) : M Call A := fun w => (Normal a, w).

Definition throw {Call A} (e : Thrown) : M Call A := fun w => (Throw e, w).

Definition bind {Call A B} (m : M Call A) (k : A -> M Call B) : M Call B :=
  fun w => match m w with
           | (Normal a, w') => k a w'
           | (Throw e, w') => (Throw e, w')
           end.

Definition lift {Call A} (c : Completion A) : M Call A := fun w => (c, w).

(** [try { body } catch (error) { handler }] *)
Definition try_catch {Call A} (body : M Call A) (handler : Thrown -> M Call A)
  : M Call A :=
  fun w => match body w with
           | (Normal a, w') => (Normal a, w')
           | (Throw e, w') => handler e w'
           end.

(** [console.error(label, arg)] *)
Definition console_error {Call} (label : string) (arg : LogArg) : M Call unit :=
  fun w => (Normal tt, mkWorld (calls w) (console w ++ [(label, arg)])).

(** The one awaited upstream call: the collaborator [upstream] answers, and
    the call is recorded. *)
Definition await_call {Call Reply} (upstream : Call -> Reply) (c : Call)
  : M Call Reply :=
  fun w => (Normal (upstream c), mkWorld (calls w ++ [c]) (console w)).

(** [v.k]: a nullish [v] throws a TypeError. *)
Definition member (v : JsVal) (k : string) : Completion JsVal :=
  if nullish v
  then type_error ("Cannot read properties of " ++ nullish_text v
                   ++ " (reading '" ++ k ++ "')")
  else Normal (get v k).

(** [v[0]] *)
Definition member0 (v : JsVal) : Completion JsVal :=
  if nullish v
  then type_error ("Cannot read properties of " ++ nullish_text v ++ " (reading '0')")
  else Normal (first v).

(** [new Error(v)] for a [v] that is not [undefined]: the message is [v]
    converted to a string, a conversion that may itself throw. *)
Definition new_Error (v : JsVal) : Completion Thrown :=
  and_then (to_string v) (fun msg => Normal (mkThrown Error msg)).

End JS.

Import JS.

Declare Scope js_scope.
Delimit Scope js_scope with js.
Notation "x <- m ;; k" := (bind m (fun x => k))
  (at level 61, m at next level, right associativity) : js_scope.
Notation "m ;;; k" := (bind m (fun _ => k))
  (at level 61, right associativity) : js_scope.

(** Sequencing of completions. *)
Notation "x <~ c ;; k" := (and_then c (fun x => k))
  (at level 61, c at next level, right associativity) : js_scope.

Open Scope js_scope.

Definition dq : string := String (ascii_of_nat 34) EmptyString.
Definition nl : string := String (ascii_of_nat 10) EmptyString.

(** ** Code the three handlers share verbatim *)

Module Shared.

(** [{ "google_search": {} }] *)
Inductive Tool := google_search.

(** One entry of [contents]: its role and the [text] of each of its parts. *)
Record Content : Type := mkContent { role : string; parts : list JsVal }.

(** The handler's answer: the status and the payload handed to
    [JSON.stringify]; every answer carries the JSON content type. *)
Record Response : Type := mkResponse { status : Z; body : JsVal }.

(** What the client parses out of the answer. *)
Definition wire (r : Response) : JsVal := serialized (body r).

(** A secret of the platform environment: a string, or not set. *)
Definition env_truthy (key : option string) : bool :=
  match key with
  | Some s => negb (s =? "")
  | None => false
  end.

Definition env_string (key : option string) : string :=
  match key with
  | Some s => s
  | None => "undefined"
  end.

(** [const { resumeText, type, location, datePosted } = v] *)
Definition destructure (what : string) (v : JsVal)
  : Completion (JsVal * JsVal * JsVal * JsVal) :=
  if nullish v
  then type_error ("Cannot destructure property 'resumeText' of '" ++ what
                   ++ "' as it is " ++ nullish_text v ++ ".")
  else Normal (get v "resumeText", get v "type", get v "location", get v "datePosted").

(** [attribution => ({ uri: attribution.web?.uri, title: attribution.web?.title })] *)
Definition source_of (attribution : JsVal) : Completion JsVal :=
  web <~ member attribution "web" ;;
  Normal (JObj [("uri", opt_get web "uri"); ("title", opt_get web "title")]).

(** [source => source.uri && source.title] *)
Definition valid_source (source : JsVal) : bool :=
  truthy (get source "uri") && truthy (get source "title").

(** [Array.prototype.map] with a callback that may throw. *)
Fixpoint array_map (f : JsVal -> Completion JsVal) (items : list JsVal)
  : Completion (list JsVal) :=
  match items with
  | [] => Normal []
  | x :: rest =>
      y <~ f x ;;
      ys <~ array_map f rest ;;
      Normal (y :: ys)
  end.

(** The value of [sources] after
[[
    let sources = [];
    if (groundingMetadata && groundingMetadata.groundingAttributions) {
        sources = groundingMetadata.groundingAttributions
            .map(attribution => ({ uri: attribution.web?.uri, title: attribution.web?.title }))
            .filter(source => source.uri && source.title);
    }
]]
    which reads the same in the three files. *)
Definition collect_sources (groundingMetadata : JsVal) : Completion (list JsVal) :=
  if truthy groundingMetadata
     && truthy (get groundingMetadata "groundingAttributions")
  then match get groundingMetadata "groundingAttributions" with
       | JArr attributions =>
           mapped <~ array_map source_of attributions ;;
           Normal (filter valid_source mapped)
       | _ => type_error "groundingMetadata.groundingAttributions.map is not a function"
       end
  else Normal [].

Definition success_body (text : JsVal) (sources : list JsVal) : JsVal :=
  JObj [("text", text); ("sources", JArr sources)].

Definition error_body (msg : string) : JsVal := JObj [("error", JStr msg)].

End Shared.

Import Shared.

(** ** functions/api/getAnalysis.js: the Cloudflare Pages Function *)

Module Pages.

Record Request : Type := mkRequest {
  json : Completion JsVal          (* what [await request.json()] settles to *)
}.

Record Env : Type := mkEnv { GEMINI_API_KEY : option string }.

Record Context : Type := mkContext { request : Request; env : Env }.

Record Payload : Type := mkPayload {
  contents : list Content;
  systemInstruction : string;      (* [{ parts: [{ text: systemPrompt }] }] *)
  tools : list Tool
}.

(** The arguments of [fetch]. *)
Record FetchCall : Type := mkFetchCall {
  url : string;
  method : string;
  headers : list (string * string);
  payload : Payload                (* [body: JSON.stringify(payload)] *)
}.

Inductive FetchReply :=
| FetchRejected (e : Thrown)
| FetchResponse (ok : bool) (json : Completion JsVal).

Definition API_URL (key : string) : string :=
  "https://generativelanguage.googleapis.com/v1beta/models/gemini-2.5-flash-preview-09-2025:generateContent?key="
  ++ key.

Definition jobs_prompt (location datePosted : JsVal) : Completion string :=
  location_text <~ to_string (js_or location (JStr "any")) ;;
  date_text <~ to_string (js_or datePosted (JStr "any")) ;;
  Normal (String.concat nl
    [ EmptyString;
      "                    You are an expert AI job search assistant.";
      "                    1.  Analyze the provided resume (text provided by the user).";
      "                    2.  Use the Google Search tool to find relevant, recent job postings.";
      "                    3.  **FILTER** your search based on these user-provided filters:";
      "                        - Location: " ++ dq ++ location_text ++ dq;
      "                        - Date Posted: " ++ dq ++ date_text ++ dq;
      "                    4.  Return a list of around 20 of the **most relevant** job postings.";
      "                    5.  **CRITICAL:** You MUST format each posting as a Markdown link: [Job Title - Company](ORIGINAL_JOB_POSTING_URL). Do not return links to Google search results.";
      "                    6.  After the job list, create a section named " ++ dq ++ "## Networking Contacts" ++ dq ++ " and find 3-5 relevant networking contacts (Recruiters, Hiring Managers) at those companies.";
      "                    7.  Format contacts as: [Full Name - Title at Company](LinkedIn_URL or Company_Profile_URL).";
      "                    8.  If no jobs or contacts are found, state that clearly. Do not invent results.";
      "                " ]).

Definition critique_prompt : string :=
  String.concat nl
    [ EmptyString;
      "                    You are an expert resume reviewer.";
      "                    1.  Analyze the provided resume (text provided by the user).";
      "                    2.  Provide a concise, constructive critique.";
      "                    3.  Structure your critique with a " ++ dq ++ "## Resume Critique" ++ dq ++ " header.";
      "                    4.  Include sections for " ++ dq ++ "Strengths" ++ dq ++ " and " ++ dq ++ "Areas for Improvement" ++ dq ++ ".";
      "                    5.  Use bullet points for clear, actionable advice.";
      "                    6.  Do NOT use the Google Search tool. Base your critique only on the text.";
      "                " ].

Definition contacts_prompt (location : JsVal) : Completion string :=
  location_text <~ to_string (js_or location (JStr "any")) ;;
  Normal (String.concat nl
    [ EmptyString;
      "                    You are an expert networking assistant.";
      "                    1.  Analyze the provided resume to understand the user's industry and key roles (text provided by the user).";
      "                    2.  Use the Google Search tool to find 5-10 relevant networking contacts (Recruiters, Hiring Managers, industry leaders) based on that resume.";
      "                    3.  **FILTER** your search based on the user-provided location: " ++ dq ++ location_text ++ dq ++ ".";
      "                    4.  Return a list with a " ++ dq ++ "## Networking Contacts" ++ dq ++ " header.";
      "                    5.  **CRITICAL:** You MUST format each contact as: [Full Name - Title at Company](LinkedIn_URL or Company_Profile_URL).";
      "                    6.  Do not return links to Google search results.";
      "                " ]).

(** The [switch (type)] of step 3: the system prompt and the tools.  The
    templates of [jobs] and [contacts] convert the filters to strings. *)
Definition select_prompt (type location datePosted : JsVal)
  : Completion (string * list Tool) :=
  if strict_eq_str type "jobs"
  then systemPrompt <~ jobs_prompt location datePosted ;;
       Normal (systemPrompt, [google_search])
  else if strict_eq_str type "critique"
  then Normal (critique_prompt, [])
  else if strict_eq_str type "contacts"
  then systemPrompt <~ contacts_prompt location ;;
       Normal (systemPrompt, [google_search])
  else Throw (mkThrown Error "Invalid analysis type.").

Definition await_fetch (fetch : FetchCall -> FetchReply) (c : FetchCall)
  : M FetchCall (bool * Completion JsVal) :=
  reply <- await_call fetch c ;;
  match reply with
  | FetchRejected e => throw e
  | FetchResponse ok body_json => ret (ok, body_json)
  end.

(** Steps 6 and 7: the answer built from the parsed upstream result. *)
Definition extract (geminiResult : JsVal) : Completion Response :=
  candidates <~ member geminiResult "candidates" ;;
  let candidate := opt_first candidates in
  let text :=
    js_or (opt_get (opt_first (opt_get (opt_get candidate "content") "parts")) "text")
          (JStr "No response text found.") in
  let groundingMetadata := opt_get candidate "groundingMetadata" in
  sources <~ collect_sources groundingMetadata ;;
  Normal (mkResponse 200 (success_body text sources)).

Definition onRequestPost (fetch : FetchCall -> FetchReply) (context : Context)
  : M FetchCall Response :=
  try_catch
    (requestData <- lift (json (request context)) ;;
     fields <- lift (destructure "requestData" requestData) ;;
     let '(resumeText, type, location, datePosted) := fields in
     let key := GEMINI_API_KEY (env context) in
     if negb (env_truthy key)
     then throw (mkThrown Error "API key is not configured.")
     else
       chosen <- lift (select_prompt type location datePosted) ;;
       let '(systemPrompt, tools) := chosen in
       resume <- lift (to_string resumeText) ;;
       let payload :=
         mkPayload
           [mkContent "user" [JStr ("Here is my resume:" ++ nl ++ nl ++ resume)]]
           systemPrompt tools in
       geminiResponse <-
         await_fetch fetch
           (mkFetchCall (API_URL (env_string key)) "POST"
              [("Content-Type", "application/json")] payload) ;;
       let '(ok, body_json) := geminiResponse in
       if negb ok
       then
         errorBody <- lift body_json ;;
         console_error "Gemini API Error:" (LogValue errorBody) ;;;
         err <- lift (member errorBody "error") ;;
         failure <- lift (new_Error (js_or (opt_get err "message")
                                           (JStr "Failed to call Gemini API."))) ;;
         throw failure
       else
         geminiResult <- lift body_json ;;
         lift (extract geminiResult))
    (fun error =>
       console_error "Error in Cloudflare function:" (LogThrown error) ;;;
       ret (mkResponse 500 (error_body (message error)))).

End Pages.

(** ** Code common to the two handlers written against the vendor SDK

    [API/gtAnalysis.js] and [functions:/api:/getAnalysis.js] differ in how the
    request reaches them, in the wording of one prompt and of their
    diagnostics; the rest reads the same in both files. *)

Module Sdk.

Inductive HarmCategory :=
| HARM_CATEGORY_HARASSMENT
| HARM_CATEGORY_HATE_SPEECH
| HARM_CATEGORY_SEXUALLY_EXPLICIT
| HARM_CATEGORY_DANGEROUS_CONTENT.

Inductive HarmBlockThreshold := BLOCK_MEDIUM_AND_ABOVE.

(** Decimal constants are kept as the source writes them. *)
Record GenerationConfig : Type := mkGenerationConfig {
  temperature : string;
  topK : Z;
  topP : string;
  maxOutputTokens : Z
}.

Definition MODEL_NAME : string := "gemini-2.5-flash-preview-09-2025".

Definition generationConfig : GenerationConfig :=
  mkGenerationConfig "0.7" 64 "0.95" 8192.

Definition safetySettings : list (HarmCategory * HarmBlockThreshold) :=
  [ (HARM_CATEGORY_HARASSMENT, BLOCK_MEDIUM_AND_ABOVE);
    (HARM_CATEGORY_HATE_SPEECH, BLOCK_MEDIUM_AND_ABOVE);
    (HARM_CATEGORY_SEXUALLY_EXPLICIT, BLOCK_MEDIUM_AND_ABOVE);
    (HARM_CATEGORY_DANGEROUS_CONTENT, BLOCK_MEDIUM_AND_ABOVE) ].

(** One [model.generateContent] call, with the model it was built on. *)
Record GenerateCall : Type := mkGenerateCall {
  apiKey : string;
  model : string;
  systemInstruction : string;
  contents : list Content;
  config : GenerationConfig;
  safety : list (HarmCategory * HarmBlockThreshold);
  tools : option (list Tool)       (* [None] is [undefined] *)
}.

Inductive GenerateReply :=
| GenerateRejected (e : Thrown)
| GenerateResult (response : JsVal).

(** [datePosted.replace("_", " ")] *)
Definition replace_underscore (datePosted : JsVal) : Completion string :=
  match datePosted with
  | JStr s => Normal (replace_first "_" " " s)
  | _ => type_error "datePosted.replace is not a function"
  end.

(** The value of [filterString] when the [switch] is reached. *)
Definition filter_string (location datePosted : JsVal) : Completion string :=
  let filterString := EmptyString in
  filterString <~
    (if truthy location
     then text <~ to_string location ;;
          Normal (filterString ++ " (Location: " ++ text ++ ")")
     else Normal filterString) ;;
  filterString <~
    (if truthy datePosted && negb (strict_eq_str datePosted "any")
     then posted <~ replace_underscore datePosted ;;
          Normal (filterString ++ " (Posted: " ++ posted ++ ")")
     else Normal filterString) ;;
  if negb (filterString =? EmptyString)
  then Normal (nl ++ nl ++ "**CRITICAL: You MUST adhere to these filters: "
               ++ filterString ++ "**")
  else Normal filterString.

Definition jobs_prompt (filterString : string) : string :=
  String.concat nl
    [ "You are an expert AI job assistant. Your user has provided their resume.";
      "1.  First, you **MUST** use the Google Search tool to find around 20 relevant job postings based on the user's resume.";
      "2.  You **MUST** format the job title as a markdown link pointing **directly to the original job posting URL (e.g., Greenhouse, Lever, or the company's career page)**, NOT a link to a Google search.";
      "3.  **DO NOT** return links to job boards like LinkedIn, Indeed, or ZipRecruiter. Only return direct, original application links.";
      "4.  After the jobs, provide a new section titled " ++ dq ++ "## Networking Contacts" ++ dq ++ " and find 3-5 relevant networking contacts (like recruiters, hiring managers, or team leads) at those companies.";
      "5.  Format the output clearly using Markdown (headers, bold text, and bullet points).";
      filterString ].

Definition contacts_prompt (filterString : string) : string :=
  String.concat nl
    [ "You are an expert AI networking assistant. Your user has provided their resume.";
      "1.  You **MUST** use the Google Search tool.";
      "2.  Find 5-10 relevant networking contacts (recruiters, hiring managers, team leads) at companies that would likely hire someone with this resume.";
      "3.  Provide their name, title, company, and if possible, a link to their public profile (like LinkedIn or a company bio).";
      "4.  Format the output clearly using Markdown.";
      filterString ].

Definition default_prompt : string :=
  String.concat nl
    [ "You are a helpful assistant. Please analyze the provided text." ].

(** [getSystemPrompt], over the critique wording of the file at hand. *)
Definition getSystemPrompt_with (critique_prompt : string)
  (type location datePosted : JsVal) : Completion string :=
  filterString <~ filter_string location datePosted ;;
  if strict_eq_str type "jobs" then Normal (jobs_prompt filterString)
  else if strict_eq_str type "critique" then Normal critique_prompt
  else if strict_eq_str type "contacts" then Normal (contacts_prompt filterString)
  else Normal default_prompt.

Definition await_generate (generateContent : GenerateCall -> GenerateReply)
  (c : GenerateCall) : M GenerateCall JsVal :=
  reply <- await_call generateContent c ;;
  match reply with
  | GenerateRejected e => throw e
  | GenerateResult response => ret response
  end.

(** Step 5: [text], [sources] and the successful answer. *)
Definition extract (response : JsVal) : Completion Response :=
  candidates <~ member response "candidates" ;;
  candidate <~ member0 candidates ;;
  content <~ member candidate "content" ;;
  parts <~ member content "parts" ;;
  part <~ member0 parts ;;
  text <~ member part "text" ;;
  groundingMetadata <~ member candidate "groundingMetadata" ;;
  sources <~ collect_sources groundingMetadata ;;
  Normal (mkResponse 200 (success_body text sources)).

(** The statements from [new GoogleGenerativeAI(API_KEY)] to the successful
    [return], in order. *)
Definition generate
  (getSystemPrompt : JsVal -> JsVal -> JsVal -> Completion string)
  (generateContent : GenerateCall -> GenerateReply) (API_KEY : option string)
  (resumeText type location datePosted : JsVal) : M GenerateCall Response :=
  prompt <- lift (getSystemPrompt type location datePosted) ;;
  let search := [google_search] in
  response <-
    await_generate generateContent
      (mkGenerateCall (env_string API_KEY) MODEL_NAME prompt
         [mkContent "user" [resumeText]] generationConfig safetySettings
         (if strict_eq_str type "jobs" || strict_eq_str type "contacts"
          then Some search else None)) ;;
  lift (extract response).

(** The [catch (error)] block. *)
Definition on_error (label : string) (error : Thrown) : M GenerateCall Response :=
  console_error label (LogThrown error) ;;;
  ret (mkResponse 500 (error_body ("Error generating content: " ++ message error))).

End Sdk.

(** ** untitled folder 9/API/gtAnalysis.js: the Vercel function *)

Module Vercel.

Record Request : Type := mkRequest {
  method : string;
  body : JsVal                     (* [request.body], [JUndefined] when absent *)
}.

Definition critique_prompt : string :=
  String.concat nl
    [ "You are an expert resume critique assistant. Your user has provided their resume.";
      "1.  Provide a concise, professional, and constructive critique of the resume.";
      "2.  Give actionable advice on how to improve it, focusing on clarity, impact, and keywords.";
      "3.  Use bullet points to make the advice easy to read.";
      "4.  Do not use Google Search for this task." ].

Definition getSystemPrompt : JsVal -> JsVal -> JsVal -> Completion string :=
  Sdk.getSystemPrompt_with critique_prompt.

(** [API_KEY] is [process.env.GEMINI_API_KEY], read when the module loads.
    A [Throw] of the result is an exception that leaves the handler. *)
Definition handler (generateContent : Sdk.GenerateCall -> Sdk.GenerateReply)
  (API_KEY : option string) (request : Request) : M Sdk.GenerateCall Response :=
  if negb (env_truthy API_KEY)
  then ret (mkResponse 500 (error_body
         "API key is missing. Please add GEMINI_API_KEY to your Vercel Environment Variables."))
  else if negb (method request =? "POST")
  then ret (mkResponse 405 (error_body "Method Not Allowed (must be POST)"))
  else
    fields <- lift (destructure "request.body" (body request)) ;;
    let '(resumeText, type, location, datePosted) := fields in
    if negb (truthy resumeText)
    then ret (mkResponse 400 (error_body "Resume text is required."))
    else if negb (truthy type)
    then ret (mkResponse 400 (error_body "Analysis type is required."))
    else
      try_catch
        (Sdk.generate getSystemPrompt generateContent API_KEY
           resumeText type location datePosted)
        (Sdk.on_error "Error in Vercel function:").

End Vercel.

(** ** untitled folder 9/functions:/api:/getAnalysis.js: the Cloudflare Worker *)

Module Worker.

Record Request : Type := mkRequest {
  method : string;
  json : Completion JsVal          (* what [await request.json()] settles to *)
}.

Record Env : Type := mkEnv { GEMINI_API_KEY : option string }.

Record Context : Type := mkContext { request : Request; env : Env }.

Definition critique_prompt : string :=
  String.concat nl
    [ "You are an expert resume critique assistant. Your user has provided their resume.";
      "1.  Provide a concise, professional, and constructive critique of the resume.";
      "2.  Give actionable advice on how to improve it,.";
      "3.  Use bullet points to make the advice easy to read.";
      "4.  Do not use Google Search for this task." ].

Definition getSystemPrompt : JsVal -> JsVal -> JsVal -> Completion string :=
  Sdk.getSystemPrompt_with critique_prompt.

Definition onRequest (generateContent : Sdk.GenerateCall -> Sdk.GenerateReply)
  (context : Context) : M Sdk.GenerateCall Response :=
  let API_KEY := GEMINI_API_KEY (env context) in
  if negb (env_truthy API_KEY)
  then ret (mkResponse 500 (error_body
         "API key is missing. Please add GEMINI_API_KEY to your Cloudflare project."))
  else if negb (method (request context) =? "POST")
  then ret (mkResponse 405 (error_body "Method Not Allowed (must be POST)"))
  else
    try_catch
      (parsed <- lift (json (request context)) ;;
       fields <- lift (destructure "(intermediate value)" parsed) ;;
       let '(resumeText, type, location, datePosted) := fields in
       if negb (truthy resumeText)
       then ret (mkResponse 400 (error_body "Resume text is required."))
       else if negb (truthy type)
       then ret (mkResponse 400 (error_body "Analysis type is required."))
       else
         Sdk.generate getSystemPrompt generateContent API_KEY
           resumeText type location datePosted)
      (Sdk.on_error "Error in Cloudflare function:").

End Worker.

(** * Vocabulary of the statements *)

Module Spec.

(** [attribution.web?.uri] and [attribution.web?.title] *)
Definition web_uri (attribution : JsVal) : JsVal :=
  opt_get (get attribution "web") "uri".

Definition web_title (attribution : JsVal) : JsVal :=
  opt_get (get attribution "web") "title".

(** The [{uri, title}] pair an attribution is mapped to. *)
Definition entry_of (attribution : JsVal) : JsVal :=
  JObj [("uri", web_uri attribution); ("title", web_title attribution)].

(** Both fields of the attribution pass the filter. *)
Definition complete (attribution : JsVal) : bool :=
  truthy (web_uri attribution) && truthy (web_title attribution).



(** The grounding attributions an upstream candidate lists: none when it has
    no metadata or its metadata has no attributions, the elements of the
    array otherwise. *)
Inductive Attributions : JsVal -> list JsVal -> Prop :=
| no_metadata groundingMetadata :
    truthy groundingMetadata = false -> Attributions groundingMetadata []
| no_attributions groundingMetadata :
    truthy (get groundingMetadata "groundingAttributions") = false ->
    Attributions groundingMetadata []
| listed groundingMetadata attributions :
    truthy groundingMetadata = true ->
    get groundingMetadata "groundingAttributions" = JArr attributions ->
    Attributions groundingMetadata attributions.

(** [l1] is [l2] with some elements left out, the others in their order. *)
Inductive Subsequence {A : Type} : list A -> list A -> Prop :=
| Subsequence_nil : Subsequence [] []
| Subsequence_drop x l1 l2 : Subsequence l1 l2 -> Subsequence l1 (x :: l2)
| Subsequence_keep x l1 l2 : Subsequence l1 l2 -> Subsequence (x :: l1) (x :: l2).

(** [kept] is [l] with exactly the elements failing [p] left out, the others
    in their order. *)
Inductive Selected {A : Type} (p : A -> bool) : list A -> list A -> Prop :=
| Selected_nil : Selected p [] []
| Selected_drop x kept l :
    p x = false -> Selected p kept l -> Selected p kept (x :: l)
| Selected_keep x kept l :
    p x = true -> Selected p kept l -> Selected p (x :: kept) (x :: l).


(** The [sources] of an answer. *)
Definition returned_sources (r : Response) : JsVal := get (body r) "sources".

(** A sample upstream candidate: two grounding attributions, the second with
    an empty title. *)
Definition sample_attributions : list JsVal :=
  [ JObj [("web", JObj [("uri", JStr "https://example.com/a"); ("title", JStr "A")])];
    JObj [("web", JObj [("uri", JStr "https://example.com/b"); ("title", JStr EmptyString)])] ].

Definition sample_metadata : JsVal :=
  JObj [("groundingAttributions", JArr sample_attributions)].

Definition sample_result (part : JsVal) : JsVal :=
  JObj [("candidates",
         JArr [JObj [("content", JObj [("parts", JArr [part])]);
                     ("groundingMetadata", sample_metadata)]])].

(** The search tool among a call's tools. *)
Definition has_search (tools : list Tool) : bool :=
  existsb (fun t => match t with google_search => true end) tools.

Definition sdk_has_search (c : Sdk.GenerateCall) : bool :=
  match Sdk.tools c with
  | Some tools => has_search tools
  | None => false
  end.

(** The analysis types that call for a web search. *)
Definition wants_search (type : JsVal) : Prop :=
  type = JStr "jobs" \/ type = JStr "contacts".

(** The three analysis types. *)
Definition valid_type (type : JsVal) : Prop :=
  type = JStr "jobs" \/ type = JStr "critique" \/ type = JStr "contacts".

(** A sample request body and sample collaborators. *)
Definition sample_resume_text : string := "Jane Doe, Software Engineer...".

Definition sample_resume : JsVal := JStr sample_resume_text.

Definition sample_body (type : string) : JsVal :=
  JObj [("resumeText", sample_resume); ("type", JStr type)].

Definition sample_generate (response : JsVal)
  : Sdk.GenerateCall -> Sdk.GenerateReply :=
  fun _ => Sdk.GenerateResult response.

Definition sample_fetch (result : JsVal) : Pages.FetchCall -> Pages.FetchReply :=
  fun _ => Pages.FetchResponse true (Normal result).

Definition sample_text_part : JsVal := JObj [("text", JStr "## Resume Critique")].


(** The call the Vercel handler issues for the sample [jobs] request. *)
Definition sample_jobs_call : Sdk.GenerateCall :=
  Sdk.mkGenerateCall "secret" Sdk.MODEL_NAME (Sdk.jobs_prompt EmptyString)
    [mkContent "user" [sample_resume]] Sdk.generationConfig Sdk.safetySettings
    (Some [google_search]).

(** What a run answered, and how many upstream calls it issued. *)
Definition answered {Call : Type} (run : Completion Response * World Call)
  : option Z :=
  match fst run with
  | Normal r => Some (status r)
  | Throw _ => None
  end.

Definition upstream_calls {Call : Type} (run : Completion Response * World Call)
  : nat :=
  length (calls (snd run)).

(** The answers of the early exits. *)
Definition method_not_allowed : Response :=
  mkResponse 405 (error_body "Method Not Allowed (must be POST)").

Definition invalid_type : Thrown := mkThrown Error "Invalid analysis type.".

Definition key_missing_vercel : Response :=
  mkResponse 500 (error_body
    "API key is missing. Please add GEMINI_API_KEY to your Vercel Environment Variables.").

Definition key_missing_worker : Response :=
  mkResponse 500 (error_body
    "API key is missing. Please add GEMINI_API_KEY to your Cloudflare project.").

(** [pat] occurs in [s]. *)
Definition Contains (pat s : string) : Prop :=
  exists pre post, s = pre ++ pat ++ post.

Fixpoint contains (pat s : string) : bool :=
  String.prefix pat s
  || match s with
     | EmptyString => false
     | String _ s' => contains pat s'
     end.

(** The sentence that introduces the filters in a prompt of [getSystemPrompt],
    and the one of the Pages prompts. *)
Definition filter_clause : string := "You MUST adhere to these filters:".

Definition pages_filter_clause : string := "**FILTER** your search based on".

(** An upstream result whose first candidate has the one given part and no
    grounding metadata, and a part that carries no text. *)
Definition plain_result (part : JsVal) : JsVal :=
  JObj [("candidates", JArr [JObj [("content", JObj [("parts", JArr [part])])]])].

Definition textless_part : JsVal :=
  JObj [("inlineData", JObj [("mimeType", JStr "image/png"); ("data", JStr "AA==")])].

Definition placeholder : JsVal := JStr "No response text found.".

(** An upstream result cut short before any part was produced. *)
Definition truncated_result : JsVal :=
  JObj [("candidates",
         JArr [JObj [("content", JObj [("role", JStr "model")]);
                     ("finishReason", JStr "MAX_TOKENS")]])].

(** The two payloads of the interface: [{text, sources}] with a text, and
    [{error}]. *)
Definition full_payload (r : Response) : Prop :=
  status r = 200%Z
  /\ (exists text sources,
        body r = success_body text sources /\ truthy text = true)
  /\ keys (wire r) = ["text"; "sources"].

Definition error_payload (r : Response) : Prop :=
  status r = 500%Z
  /\ (exists msg, body r = error_body msg)
  /\ keys (wire r) = ["error"].

(** [candidate?.content?.parts?.[0]?.text] of the first candidate of a result. *)
Definition first_text (result : JsVal) : JsVal :=
  opt_get (opt_first (opt_get (opt_get (opt_first (get result "candidates"))
                                       "content") "parts")) "text".

Definition first_metadata (result : JsVal) : JsVal :=
  opt_get (opt_first (get result "candidates")) "groundingMetadata".

(** When a prompt of [getSystemPrompt] carries the filter clause, for one
    [type] and one pair of filters:
    - with no location and no date (a date of "any" counting as none) the
      prompt is produced and carries no filter clause;
    - a prompt that carries the clause is not the critique prompt, and a
      location or a date other than "any" was supplied;
    - for [jobs] and [contacts] a supplied location that converts to a string
      is appended as that string, in the clause, when the date is empty or a
      string. *)
Definition filter_clause_rule
  (getSystemPrompt : JsVal -> JsVal -> JsVal -> Completion string)
  (type location datePosted : JsVal) : Prop :=
  (truthy location = false ->
   truthy datePosted = false \/ datePosted = JStr "any" ->
   exists prompt,
     getSystemPrompt type location datePosted = Normal prompt
     /\ ~ Contains filter_clause prompt)
  /\ (forall prompt,
        getSystemPrompt type location datePosted = Normal prompt ->
        Contains filter_clause prompt ->
        type <> JStr "critique"
        /\ (truthy location = true
            \/ (truthy datePosted = true /\ datePosted <> JStr "any")))
  /\ (forall text,
        type <> JStr "critique" ->
        truthy location = true ->
        to_string location = Normal text ->
        truthy datePosted = false \/ (exists s, datePosted = JStr s) ->
        exists prompt,
          getSystemPrompt type location datePosted = Normal prompt
          /\ Contains filter_clause prompt
          /\ Contains (" (Location: " ++ text ++ ")") prompt).

(** The call issued for a type that [getSystemPrompt] does not know: the
    fallback prompt, and no tool. *)
Definition fallback_call (key : option string) (resumeText : JsVal)
  : Sdk.GenerateCall :=
  Sdk.mkGenerateCall (env_string key) Sdk.MODEL_NAME Sdk.default_prompt
    [mkContent "user" [resumeText]] Sdk.generationConfig Sdk.safetySettings None.

(** A filter as a Pages prompt writes it: the string [filter || 'any']
    converts to. *)
Definition written_as (filter : JsVal) (text : string) : Prop :=
  to_string (js_or filter (JStr "any")) = Normal text.

(** The filter lines of the Pages prompts: whenever the filters convert to
    strings, the [jobs] and the [contacts] prompt are built and carry their
    filter lines, with each filter as it is written; a filter that is not
    supplied is written as "any"; the [critique] prompt has no filter line. *)
Definition pages_filter_lines (location datePosted : JsVal) : Prop :=
  (forall location_text date_text,
      written_as location location_text ->
      written_as datePosted date_text ->
      exists prompt,
        Pages.jobs_prompt location datePosted = Normal prompt
        /\ Contains pages_filter_clause prompt
        /\ Contains ("Location: " ++ dq ++ location_text ++ dq) prompt
        /\ Contains ("Date Posted: " ++ dq ++ date_text ++ dq) prompt)
  /\ (forall location_text,
        written_as location location_text ->
        exists prompt,
          Pages.contacts_prompt location = Normal prompt
          /\ Contains pages_filter_clause prompt
          /\ Contains ("location: " ++ dq ++ location_text ++ dq) prompt)
  /\ (truthy location = false -> written_as location "any")
  /\ (truthy datePosted = false -> written_as datePosted "any")
  /\ ~ Contains pages_filter_clause Pages.critique_prompt.


(** A source as the answer lists it: an object with exactly a [uri] and a
    [title], both of which pass the filter. *)
Definition complete_pair (s : JsVal) : Prop :=
  exists u t,
    s = JObj [("uri", u); ("title", t)] /\ truthy u = true /\ truthy t = true.

(** The answers of the two handlers written against the SDK, as handed to the
    serializer: a 200 with [text] and [sources], or a 400, 405 or 500 with
    [error]. *)
Definition sdk_answer (r : Response) : Prop :=
  (status r = 200%Z /\ exists text sources, body r = success_body text sources)
  \/ ((status r = 400%Z \/ status r = 405%Z \/ status r = 500%Z)
      /\ exists msg, body r = error_body msg).

(** The answer of the [catch] block of the SDK handlers for a caught error. *)
Definition caught_answer (error : Thrown) : Response :=
  mkResponse 500 (error_body ("Error generating content: " ++ message error)).

(** The links of [result.response.candidates[0].content.parts[0]], each of
    which the SDK handlers read without a guard. *)
Definition sdk_candidate (response : JsVal) : JsVal :=
  first (get response "candidates").

Definition sdk_part (response : JsVal) : JsVal :=
  first (get (get (sdk_candidate response) "content") "parts").

Definition sdk_links_defined (response : JsVal) : Prop :=
  nullish response = false
  /\ nullish (get response "candidates") = false
  /\ nullish (sdk_candidate response) = false
  /\ nullish (get (sdk_candidate response) "content") = false
  /\ nullish (get (get (sdk_candidate response) "content") "parts") = false
  /\ nullish (sdk_part response) = false.

(** The user content of a Pages call for a resume converted to a string. *)
Definition pages_user_content (resume : string) : list Content :=
  [mkContent "user" [JStr ("Here is my resume:" ++ nl ++ nl ++ resume)]].

(** The one call the Pages handler issues for a resume converted to a string
    and the prompt and tools chosen for the request. *)
Definition pages_call (key : option string) (resume : string)
  (chosen : string * list Tool) : Pages.FetchCall :=
  Pages.mkFetchCall (Pages.API_URL (env_string key)) "POST"
    [("Content-Type", "application/json")]
    (Pages.mkPayload (pages_user_content resume) (fst chosen) (snd chosen)).

(** A request that the Pages handler takes as far as its upstream call: the
    body parsed to [v], which is not [null]; the credential is configured;
    the [switch] chose a prompt and tools for the type; and the resume
    converted to a string. *)
Definition pages_ready (ctx : Pages.Context) (v : JsVal)
  (chosen : string * list Tool) (resume : string) : Prop :=
  Pages.json (Pages.request ctx) = Normal v
  /\ nullish v = false
  /\ env_truthy (Pages.GEMINI_API_KEY (Pages.env ctx)) = true
  /\ Pages.select_prompt (get v "type") (get v "location") (get v "datePosted")
     = Normal chosen
  /\ to_string (get v "resumeText") = Normal resume.

(** The one call the SDK handlers issue for a parsed body [v] and a prompt. *)
Definition sdk_call (key : option string) (v : JsVal) (prompt : string)
  : Sdk.GenerateCall :=
  Sdk.mkGenerateCall (env_string key) Sdk.MODEL_NAME prompt
    [mkContent "user" [get v "resumeText"]] Sdk.generationConfig Sdk.safetySettings
    (if strict_eq_str (get v "type") "jobs" || strict_eq_str (get v "type") "contacts"
     then Some [google_search] else None).

(** [errorBody.error?.message] *)
Definition upstream_message (errorBody : JsVal) : JsVal :=
  opt_get (get errorBody "error") "message".

(** What the conversion of a value to a string throws, when it throws. *)
Definition unprintable : Thrown :=
  mkThrown TypeError "Cannot convert object to primitive value".

(** The error the Pages handler throws in its own name. *)
Definition pages_error (msg : string) : Thrown := mkThrown Error msg.

(** The log entry of a [catch] block. *)
Definition caught_log (label : string) (error : Thrown) : string * LogArg :=
  (label, LogThrown error).

Definition cloudflare_label : string := "Error in Cloudflare function:".

Definition vercel_label : string := "Error in Vercel function:".

(** The fields of a body that pass the validation of the SDK handlers. *)
Definition validated (v : JsVal) : Prop :=
  nullish v = false
  /\ truthy (get v "resumeText") = true
  /\ truthy (get v "type") = true.

(** [getSystemPrompt] applied to the fields of a body. *)
Definition prompt_of (getSystemPrompt : JsVal -> JsVal -> JsVal -> Completion string)
  (v : JsVal) : Completion string :=
  getSystemPrompt (get v "type") (get v "location") (get v "datePosted").

(** [post m w Q]: running [m] from the world [w] ends in a completion and a
    world that satisfy [Q]. *)
Definition post {Call A : Type} (m : M Call A) (w : World Call)
  (Q : Completion A -> World Call -> Prop) : Prop :=
  Q (fst (m w)) (snd (m w)).

End Spec.

Import Spec.

(** * Properties *)

(** ** Values *)

Lemma truthy_string (s : string) : truthy (JStr s) = true <-> s <> EmptyString.
Proof.
  simpl. destruct (String.eqb_spec s EmptyString) as [E | E]; simpl.
  - split; [discriminate | congruence].
  - split; auto.
Qed.

Lemma truthy_not_nullish (v : JsVal) : truthy v = true -> nullish v = false.
Proof. destruct v; simpl; auto; discriminate. Qed.

Lemma strict_eq_str_true (v : JsVal) (s : string) :
  strict_eq_str v s = true <-> v = JStr s.
Proof.
  destruct v; simpl; try (split; [discriminate | discriminate]).
  rewrite String.eqb_eq. split; [intros -> | intros [= ->]]; reflexivity.
Qed.

Lemma strict_eq_str_false (v : JsVal) (s : string) :
  strict_eq_str v s = false <-> v <> JStr s.
Proof.
  rewrite <- strict_eq_str_true. destruct (strict_eq_str v s); split; congruence.
Qed.

(** ** Running a handler: one rule per construct of the monad *)

Section Rules.

Context {Call : Type}.

Lemma post_ret {A} (a : A) (w : World Call) Q :
  Q (Normal a) w -> post (ret a) w Q.
Proof. exact (fun H => H). Qed.

Lemma post_throw {A} (e : Thrown) (w : World Call) (Q : Completion A -> _ -> Prop) :
  Q (Throw e) w -> post (throw e) w Q.
Proof. exact (fun H => H). Qed.

Lemma post_lift {A} (c : Completion A) (w : World Call) Q :
  Q c w -> post (lift c) w Q.
Proof. exact (fun H => H). Qed.

Lemma post_bind {A B} (m : M Call A) (k : A -> M Call B) (w : World Call) Q :
  post m w (fun c w' => match c with
                        | Normal a => post (k a) w' Q
                        | Throw e => Q (Throw e) w'
                        end) ->
  post (bind m k) w Q.
Proof.
  unfold post, bind. destruct (m w) as [[a | e] w']; simpl; auto.
Qed.

Lemma post_try_catch {A} (body : M Call A) (handler : Thrown -> M Call A)
  (w : World Call) Q :
  post body w (fun c w' => match c with
                           | Normal a => Q (Normal a) w'
                           | Throw e => post (handler e) w' Q
                           end) ->
  post (try_catch body handler) w Q.
Proof.
  unfold post, try_catch. destruct (body w) as [[a | e] w']; simpl; auto.
Qed.

Lemma post_console_error (label : string) (arg : LogArg) (w : World Call) Q :
  Q (Normal tt) (mkWorld (calls w) (console w ++ [(label, arg)])) ->
  post (console_error label arg) w Q.
Proof. exact (fun H => H). Qed.

Lemma post_await_call {Reply} (upstream : Call -> Reply) (c : Call)
  (w : World Call) Q :
  Q (Normal (upstream c)) (mkWorld (calls w ++ [c]) (console w)) ->
  post (await_call upstream c) w Q.
Proof. exact (fun H => H). Qed.

End Rules.

(** One step of a run: the rule of the construct at the head, or a case
    analysis of what the head branches on. *)
Ltac run_step :=
  lazymatch goal with
  | |- post (ret _) _ _ => apply post_ret
  | |- post (throw _) _ _ => apply post_throw
  | |- post (lift _) _ _ => apply post_lift
  | |- post (bind _ _) _ _ => apply post_bind
  | |- post (try_catch _ _) _ _ => apply post_try_catch
  | |- post (console_error _ _) _ _ => apply post_console_error
  | |- post (await_call _ _) _ _ => apply post_await_call
  | |- post (if ?b then _ else _) _ _ => destruct b eqn:?
  | |- post (match ?x with _ => _ end) _ _ => destruct x eqn:?
  | |- match ?c with Normal _ => _ | Throw _ => _ end => destruct c eqn:?
  end; cbv beta.

Ltac run := repeat run_step.

(** ** Sources: the grounding attributions that reach the answer *)

Lemma source_of_object (a : JsVal) :
  nullish a = false -> source_of a = Normal (entry_of a).
Proof.
  intros Ha. unfold source_of, member. rewrite Ha. reflexivity.
Qed.

Lemma source_of_nullish (a : JsVal) :
  nullish a = true -> exists e, source_of a = Throw e.
Proof.
  intros Ha. unfold source_of, member. rewrite Ha. eexists. reflexivity.
Qed.

Lemma array_map_source_of (attributions : list JsVal) :
  Forall (fun a => nullish a = false) attributions ->
  array_map source_of attributions = Normal (map entry_of attributions).
Proof.
  induction 1 as [| a rest Ha _ IH]; simpl.
  - reflexivity.
  - rewrite (source_of_object a Ha). simpl. rewrite IH. reflexivity.
Qed.

Lemma valid_source_entry (a : JsVal) : valid_source (entry_of a) = complete a.
Proof. reflexivity. Qed.

Lemma filter_map_entries (attributions : list JsVal) :
  filter valid_source (map entry_of attributions)
  = map entry_of (filter complete attributions).
Proof.
  induction attributions as [| a rest IH]; simpl.
  - reflexivity.
  - rewrite valid_source_entry. destruct (complete a); simpl; rewrite IH; reflexivity.
Qed.

Lemma filter_Subsequence {A : Type} (p : A -> bool) (l : list A) :
  Subsequence (filter p l) l.
Proof.
  induction l as [| x l IH]; simpl.
  - constructor.
  - destruct (p x); constructor; exact IH.
Qed.

(** What [collect_sources] computes over an array of attributions none of
    which is [null]. *)
Lemma collect_sources_array (groundingMetadata : JsVal) (attributions : list JsVal) :
  truthy groundingMetadata = true ->
  get groundingMetadata "groundingAttributions" = JArr attributions ->
  Forall (fun a => nullish a = false) attributions ->
  collect_sources groundingMetadata
  = Normal (map entry_of (filter complete attributions)).
Proof.
  intros Hgm Hget Hall. unfold collect_sources.
  rewrite Hgm, Hget. simpl.
  rewrite (array_map_source_of attributions Hall). simpl.
  rewrite filter_map_entries. reflexivity.
Qed.

(** No metadata, or metadata without attributions: no sources, no error. *)
Lemma collect_sources_absent (groundingMetadata : JsVal) :
  truthy groundingMetadata = false
  \/ truthy (get groundingMetadata "groundingAttributions") = false ->
  collect_sources groundingMetadata = Normal [].
Proof.
  intros [H | H]; unfold collect_sources; rewrite H; simpl; auto.
  rewrite andb_false_r. reflexivity.
Qed.

Lemma collect_sources_listed (groundingMetadata : JsVal) (attributions : list JsVal) :
  Attributions groundingMetadata attributions ->
  Forall (fun a => nullish a = false) attributions ->
  collect_sources groundingMetadata
  = Normal (map entry_of (filter complete attributions)).
Proof.
  intros [gm H | gm H | gm atts Hgm Hget] Hall.
  - apply collect_sources_absent. left. exact H.
  - apply collect_sources_absent. right. exact H.
  - apply collect_sources_array; assumption.
Qed.



Lemma filter_Selected {A : Type} (p : A -> bool) (l : list A) :
  Selected p (filter p l) l.
Proof.
  induction l as [| x l IH]; simpl.
  - constructor.
  - destruct (p x) eqn:E; constructor; assumption.
Qed.

Lemma Selected_filter {A : Type} (p : A -> bool) (kept l : list A) :
  Selected p kept l -> kept = filter p l.
Proof.
  induction 1 as [| x kept l E _ IH | x kept l E _ IH]; simpl.
  - reflexivity.
  - rewrite E. exact IH.
  - rewrite E, IH. reflexivity.
Qed.


Lemma source_of_cases (a : JsVal) :
  (nullish a = false /\ source_of a = Normal (entry_of a))
  \/ (nullish a = true
      /\ source_of a
         = type_error ("Cannot read properties of " ++ nullish_text a
                       ++ " (reading 'web')")).
Proof.
  unfold source_of, member. destruct (nullish a); [right | left]; split; reflexivity.
Qed.

Lemma array_map_source_of_Normal (attributions mapped : list JsVal) :
  array_map source_of attributions = Normal mapped ->
  mapped = map entry_of attributions
  /\ Forall (fun a => nullish a = false) attributions.
Proof.
  revert mapped. induction attributions as [| a rest IH]; intros mapped H.
  - injection H as <-. split; constructor.
  - simpl in H. destruct (source_of_cases a) as [[Ha E] | [Ha E]]; rewrite E in H;
      [| discriminate].
    simpl in H. destruct (array_map source_of rest) as [ys | e]; [| discriminate].
    injection H as <-. destruct (IH ys eq_refl) as [-> Hall].
    split; [reflexivity | constructor; assumption].
Qed.

Lemma array_map_source_of_Throw (attributions : list JsVal) :
  Exists (fun a => nullish a = true) attributions ->
  exists e, array_map source_of attributions = Throw e /\ name e = TypeError.
Proof.
  induction attributions as [| a rest IH]; intros H.
  - inversion H.
  - simpl. destruct (source_of_cases a) as [[Ha E] | [Ha E]]; rewrite E.
    + simpl. inversion H as [? ? Hn | ? ? Hrest]; subst; [congruence |].
      destruct (IH Hrest) as [e [-> He]]. exists e. split; [reflexivity | exact He].
    + eexists. split; reflexivity.
Qed.


(** What [collect_sources] returns, when it returns: the attributions were
    none, or an array without [null], and the sources are the complete ones
    among them, mapped in their order. *)
Lemma collect_sources_Normal (groundingMetadata : JsVal) (sources : list JsVal) :
  collect_sources groundingMetadata = Normal sources ->
  exists attributions,
    Attributions groundingMetadata attributions
    /\ Forall (fun a => nullish a = false) attributions
    /\ sources = map entry_of (filter complete attributions).
Proof.
  unfold collect_sources.
  destruct (truthy groundingMetadata) eqn:Hgm; simpl.
  2: { intros [= <-]. exists []. split; [apply no_metadata; exact Hgm |].
       split; [constructor | reflexivity]. }
  destruct (truthy (get groundingMetadata "groundingAttributions")) eqn:Hat.
  2: { intros [= <-]. exists []. split; [apply no_attributions; exact Hat |].
       split; [constructor | reflexivity]. }
  destruct (get groundingMetadata "groundingAttributions")
    as [ | | | | | atts | ] eqn:Hget; try discriminate.
  destruct (array_map source_of atts) as [mapped |] eqn:Hmap; [| discriminate].
  simpl. intros [= <-].
  destruct (array_map_source_of_Normal _ _ Hmap) as [-> Hall].
  exists atts. split; [apply listed; assumption |].
  split; [exact Hall | apply filter_map_entries].
Qed.

(** ** Reading the upstream result *)

Lemma Pages_extract_iff (result : JsVal) (r : Response) :
  Pages.extract result = Normal r
  <-> nullish result = false
      /\ exists sources,
           collect_sources (first_metadata result) = Normal sources
           /\ r = mkResponse 200
                    (success_body (js_or (first_text result) placeholder) sources).
Proof.
  unfold Pages.extract, member, first_text, first_metadata.
  destruct (nullish result) eqn:Hr; simpl and_then.
  - split; [discriminate | intros [H _]; discriminate].
  - destruct (collect_sources _) as [sources | e]; simpl and_then.
    + split.
      * intros [= <-]. split; [reflexivity |]. exists sources. split; reflexivity.
      * intros [_ [s [[= <-] ->]]]. reflexivity.
    + split; [discriminate | intros [_ [s [Hs _]]]; discriminate].
Qed.

Lemma Sdk_extract_iff (result : JsVal) (r : Response) :
  Sdk.extract result = Normal r
  <-> sdk_links_defined result
      /\ exists sources,
           collect_sources (get (sdk_candidate result) "groundingMetadata")
           = Normal sources
           /\ r = mkResponse 200
                    (success_body (get (sdk_part result) "text") sources).
Proof.
  unfold Sdk.extract, sdk_links_defined, sdk_part, sdk_candidate, member, member0.
  repeat match goal with
         | |- context [if nullish ?x then _ else _] =>
             destruct (nullish x) eqn:?; simpl and_then;
             [ split; [discriminate | intros [Hl _]; decompose [and] Hl; congruence] | ]
         end.
  destruct (collect_sources _) as [sources | e]; simpl and_then.
  - split.
    + intros [= <-]. split; [repeat split; assumption |].
      exists sources. split; reflexivity.
    + intros [_ [s [[= <-] ->]]]. reflexivity.
  - split; [discriminate | intros [_ [s [Hs _]]]; discriminate].
Qed.

(** With every link there, the metadata the SDK handlers read is the one of
    the first candidate. *)
Lemma sdk_first_metadata (result : JsVal) :
  sdk_links_defined result ->
  get (sdk_candidate result) "groundingMetadata" = first_metadata result.
Proof.
  intros [_ [Hcs [Hc _]]]. unfold first_metadata, opt_get, opt_first.
  rewrite Hcs. fold (sdk_candidate result). rewrite Hc. reflexivity.
Qed.





(** C10. The returned [sources] are the complete attributions of the first
    candidate in the order the upstream result lists them: whenever the
    extraction of a handler returns, its sources are the images of the
    attributions kept by the filter, none of which has moved; and the
    extraction does return for a candidate with no metadata, no
    attributions, or an array of attributions none of which is [null]. *)
Theorem sources_keep_attribution_order (result : JsVal) :
  (forall r,
      Pages.extract result = Normal r \/ Sdk.extract result = Normal r ->
      exists attributions kept,
        Attributions (first_metadata result) attributions
        /\ Selected complete kept attributions
        /\ Subsequence kept attributions
        /\ returned_sources r = JArr (map entry_of kept))
  /\ (forall attributions,
        Attributions (first_metadata result) attributions ->
        Forall (fun a => nullish a = false) attributions ->
        (nullish result = false -> exists r, Pages.extract result = Normal r)
        /\ (sdk_links_defined result -> exists r, Sdk.extract result = Normal r)).
Proof.
  split.
  - intros r Hrun.
    assert (H : exists sources,
               collect_sources (first_metadata result) = Normal sources
               /\ returned_sources r = JArr sources).
    { destruct Hrun as [Hrun | Hrun].
      - apply Pages_extract_iff in Hrun. destruct Hrun as [_ [sources [Hs ->]]].
        exists sources. split; [exact Hs | reflexivity].
      - apply Sdk_extract_iff in Hrun. destruct Hrun as [Hl [sources [Hs ->]]].
        rewrite (sdk_first_metadata result Hl) in Hs.
        exists sources. split; [exact Hs | reflexivity]. }
    destruct H as [sources [Hs Hr]].
    destruct (collect_sources_Normal _ _ Hs) as [attributions [Hlist [_ ->]]].
    exists attributions, (filter complete attributions).
    split; [exact Hlist | split; [apply filter_Selected | split]].
    + apply filter_Subsequence.
    + exact Hr.
  - intros attributions Hlist Hall.
    pose proof (collect_sources_listed _ _ Hlist Hall) as Hs. split.
    + intros Hr. eexists. apply Pages_extract_iff. split; [exact Hr |].
      eexists. split; [exact Hs | reflexivity].
    + intros Hl. eexists. apply Sdk_extract_iff. split; [exact Hl |].
      eexists. split; [| reflexivity].
      rewrite (sdk_first_metadata result Hl). exact Hs.
Qed.

Lemma sources_order_sample :
  exists attributions kept,
    Attributions (first_metadata (sample_result sample_text_part)) attributions
    /\ Selected complete kept attributions
    /\ Subsequence kept attributions
    /\ returned_sources
         (mkResponse 200
            (success_body (JStr "## Resume Critique")
               [JObj [("uri", JStr "https://example.com/a"); ("title", JStr "A")]]))
       = JArr (map entry_of kept).
Proof.
  apply (proj1 (sources_keep_attribution_order (sample_result sample_text_part))).
  left. reflexivity.
Defined.

(** ** Which calls a handler issues *)

Lemma destructure_Normal (what : string) (v : JsVal) fields :
  destructure what v = Normal fields ->
  nullish v = false
  /\ fields = (get v "resumeText", get v "type", get v "location", get v "datePosted").
Proof.
  unfold destructure. destruct (nullish v); [discriminate |].
  intros [= <-]. auto.
Qed.

Lemma Pages_select_prompt_tools (type location datePosted : JsVal) prompt tools :
  Pages.select_prompt type location datePosted = Normal (prompt, tools) ->
  has_search tools = true <-> wants_search type.
Proof.
  unfold Pages.select_prompt, wants_search.
  destruct (strict_eq_str type "jobs") eqn:J.
  { destruct (Pages.jobs_prompt location datePosted); [| discriminate].
    intros [= _ <-]. apply strict_eq_str_true in J. simpl. tauto. }
  destruct (strict_eq_str type "critique") eqn:C.
  { intros [= _ <-]. apply strict_eq_str_true in C. subst. simpl.
    split; [discriminate | intros [H | H]; discriminate]. }
  destruct (strict_eq_str type "contacts") eqn:K.
  { destruct (Pages.contacts_prompt location); [| discriminate].
    intros [= _ <-]. apply strict_eq_str_true in K. simpl. tauto. }
  discriminate.
Qed.

Lemma Sdk_tools_selector (type : JsVal) :
  match (if strict_eq_str type "jobs" || strict_eq_str type "contacts"
         then Some [google_search] else None) with
  | Some tools => has_search tools
  | None => false
  end = true <-> wants_search type.
Proof.
  unfold wants_search.
  rewrite <- !strict_eq_str_true.
  destruct (strict_eq_str type "jobs"), (strict_eq_str type "contacts"); simpl;
    intuition congruence.
Qed.

(** The calls recorded so far, from an empty world. *)
Ltac no_call :=
  cbn [calls console app In]; let H := fresh in intros ? H; exact (False_ind _ H).
Ltac one_call := cbn [calls console app In]; intros ? [<- | []].

Ltac fields_of_body :=
  match goal with
  | H : destructure _ _ = Normal _ |- _ =>
      apply destructure_Normal in H; destruct H as [_ H]; inversion H; subst
  end.

Lemma Pages_calls_attach_search fetch ctx :
  post (Pages.onRequestPost fetch ctx) start
    (fun _ w => forall c, In c (calls w) ->
       exists v, Pages.json (Pages.request ctx) = Normal v
         /\ (has_search (Pages.tools (Pages.payload c)) = true
             <-> wants_search (get v "type"))).
Proof.
  unfold Pages.onRequestPost, Pages.await_fetch, start.
  run; try no_call; one_call;
    (eexists; split; [reflexivity |]);
    fields_of_body; eapply Pages_select_prompt_tools; eassumption.
Qed.

Lemma Vercel_calls_attach_search generateContent key req :
  post (Vercel.handler generateContent key req) start
    (fun _ w => forall c, In c (calls w) ->
       sdk_has_search c = true <-> wants_search (get (Vercel.body req) "type")).
Proof.
  unfold Vercel.handler, Sdk.generate, Sdk.on_error, Sdk.await_generate, start.
  run; try no_call; one_call; fields_of_body; apply Sdk_tools_selector.
Qed.

Lemma Worker_calls_attach_search generateContent ctx :
  post (Worker.onRequest generateContent ctx) start
    (fun _ w => forall c, In c (calls w) ->
       exists v, Worker.json (Worker.request ctx) = Normal v
         /\ (sdk_has_search c = true <-> wants_search (get v "type"))).
Proof.
  unfold Worker.onRequest, Sdk.generate, Sdk.on_error, Sdk.await_generate, start.
  run; try no_call; one_call; fields_of_body;
    (eexists; split; [reflexivity |]); apply Sdk_tools_selector.
Qed.

(** C3. Every call that reaches the upstream API carries the search tool if
    and only if the requested [type] is [jobs] or [contacts]; a [critique]
    call, and a call for any other type, carries none.  This holds in the
    three handlers. *)
Theorem search_tool_iff_jobs_or_contacts :
  (forall fetch ctx c,
      In c (calls (snd (Pages.onRequestPost fetch ctx start))) ->
      exists v, Pages.json (Pages.request ctx) = Normal v
        /\ (has_search (Pages.tools (Pages.payload c)) = true
            <-> wants_search (get v "type")))
  /\ (forall generateContent key req c,
      In c (calls (snd (Vercel.handler generateContent key req start))) ->
      sdk_has_search c = true <-> wants_search (get (Vercel.body req) "type"))
  /\ (forall generateContent ctx c,
      In c (calls (snd (Worker.onRequest generateContent ctx start))) ->
      exists v, Worker.json (Worker.request ctx) = Normal v
        /\ (sdk_has_search c = true <-> wants_search (get v "type"))).
Proof.
  split; [| split].
  - intros fetch ctx c Hc. exact (Pages_calls_attach_search fetch ctx c Hc).
  - intros g key req c Hc. exact (Vercel_calls_attach_search g key req c Hc).
  - intros g ctx c Hc. exact (Worker_calls_attach_search g ctx c Hc).
Qed.

Lemma search_tool_sample :
  sdk_has_search sample_jobs_call = true
  <-> wants_search (get (sample_body "jobs") "type").
Proof.
  apply (proj1 (proj2 search_tool_iff_jobs_or_contacts)
           (sample_generate (sample_result sample_text_part)) (Some "secret")
           (Vercel.mkRequest "POST" (sample_body "jobs")) sample_jobs_call).
  vm_compute. left. reflexivity.
Defined.

(** ** The early exits *)

Lemma negb_env_truthy_false (key : option string) :
  env_truthy key = true -> negb (env_truthy key) = false.
Proof. intros ->. reflexivity. Qed.

Lemma not_POST (m : string) : m <> "POST" -> negb (m =? "POST") = true.
Proof. intros H. apply String.eqb_neq in H. rewrite H. reflexivity. Qed.

(** C7 (as amended). With the credential configured, the Vercel and the
    Worker handler answer a request whose method is not POST with 405 and
    leave the world untouched: no upstream call is issued. *)
Theorem non_POST_is_refused_when_configured :
  (forall generateContent key req w,
      env_truthy key = true ->
      Vercel.method req <> "POST" ->
      Vercel.handler generateContent key req w = (Normal method_not_allowed, w))
  /\ (forall generateContent ctx w,
      env_truthy (Worker.GEMINI_API_KEY (Worker.env ctx)) = true ->
      Worker.method (Worker.request ctx) <> "POST" ->
      Worker.onRequest generateContent ctx w = (Normal method_not_allowed, w)).
Proof.
  split.
  - intros g key req w Hkey Hm. unfold Vercel.handler.
    rewrite (negb_env_truthy_false key Hkey), (not_POST _ Hm). reflexivity.
  - intros g ctx w Hkey Hm. unfold Worker.onRequest.
    rewrite (negb_env_truthy_false _ Hkey), (not_POST _ Hm). reflexivity.
Qed.

Lemma non_POST_sample :
  Vercel.handler (sample_generate (sample_result sample_text_part)) (Some "secret")
    (Vercel.mkRequest "GET" (sample_body "jobs")) start
  = (Normal method_not_allowed, start).
Proof.
  apply (proj1 non_POST_is_refused_when_configured); [reflexivity | discriminate].
Defined.

(** C7, the claim as first stated. Without the credential the same request is
    answered 500, not 405: the credential is checked first. *)
Lemma non_POST_without_credential :
  answered (Vercel.handler (sample_generate (sample_result sample_text_part)) None
              (Vercel.mkRequest "GET" (sample_body "jobs")) start)
  = Some 500%Z
  /\ Vercel.handler (sample_generate (sample_result sample_text_part)) None
       (Vercel.mkRequest "GET" (sample_body "jobs")) start
     <> (Normal method_not_allowed, start).
Proof. split; [reflexivity | discriminate]. Qed.

Lemma env_falsy (key : option string) :
  env_truthy key = false -> negb (env_truthy key) = true.
Proof. intros ->. reflexivity. Qed.

Lemma Pages_without_credential fetch ctx w :
  env_truthy (Pages.GEMINI_API_KEY (Pages.env ctx)) = false ->
  exists e,
    Pages.onRequestPost fetch ctx w
    = (Normal (mkResponse 500 (error_body (message e))),
       mkWorld (calls w) (console w ++ [caught_log cloudflare_label e]))
    /\ (forall v, Pages.json (Pages.request ctx) = Normal v ->
                  nullish v = false ->
                  e = pages_error "API key is not configured.")
    /\ (forall v, Pages.json (Pages.request ctx) = Normal v ->
                  nullish v = true ->
                  name e = TypeError)
    /\ (forall e', Pages.json (Pages.request ctx) = Throw e' -> e = e').
Proof.
  intros Hkey. unfold Pages.onRequestPost, try_catch, bind, lift, destructure.
  destruct (Pages.json (Pages.request ctx)) as [v | e'].
  - destruct (nullish v) eqn:Hv.
    + eexists. split; [reflexivity |]. repeat split.
      * intros v' [= <-]. congruence.
      * intros e' [=].
    + cbv beta iota. rewrite (env_falsy _ Hkey).
      eexists. split; [reflexivity |]. repeat split.
      * intros v' [= <-]. congruence.
      * intros e' [=].
  - exists e'. split; [reflexivity |]. repeat split.
    + intros v [=].
    + intros v [=].
    + intros e'' [= <-]. reflexivity.
Qed.

(** C6 (as amended). Without the credential every handler answers 500 with
    an error payload and issues no upstream call, whatever the request.  The
    Vercel and the Worker handler report the missing key for every request.
    The Pages handler reads and destructures the body first: the error it
    reports, and logs, is "API key is not configured." when the body parses
    to a value that is not [null], the error of the parser when the body does
    not parse, and a TypeError when the body parses to [null]. *)
Theorem missing_credential_is_a_500 :
  (forall generateContent key req w,
      env_truthy key = false ->
      Vercel.handler generateContent key req w = (Normal key_missing_vercel, w))
  /\ (forall generateContent ctx w,
      env_truthy (Worker.GEMINI_API_KEY (Worker.env ctx)) = false ->
      Worker.onRequest generateContent ctx w = (Normal key_missing_worker, w))
  /\ (forall fetch ctx w,
      env_truthy (Pages.GEMINI_API_KEY (Pages.env ctx)) = false ->
      exists e,
        Pages.onRequestPost fetch ctx w
        = (Normal (mkResponse 500 (error_body (message e))),
           mkWorld (calls w) (console w ++ [caught_log cloudflare_label e]))
        /\ (forall v, Pages.json (Pages.request ctx) = Normal v ->
                      nullish v = false ->
                      e = pages_error "API key is not configured.")
        /\ (forall v, Pages.json (Pages.request ctx) = Normal v ->
                      nullish v = true ->
                      name e = TypeError)
        /\ (forall e', Pages.json (Pages.request ctx) = Throw e' -> e = e')).
Proof.
  split; [| split].
  - intros g key req w Hkey. unfold Vercel.handler.
    rewrite (env_falsy key Hkey). reflexivity.
  - intros g ctx w Hkey. unfold Worker.onRequest.
    rewrite (env_falsy _ Hkey). reflexivity.
  - intros fetch ctx w Hkey. exact (Pages_without_credential fetch ctx w Hkey).
Qed.

Lemma missing_credential_sample :
  exists e,
    Pages.onRequestPost (sample_fetch (sample_result sample_text_part))
      (Pages.mkContext (Pages.mkRequest (Normal (sample_body "jobs")))
         (Pages.mkEnv None)) start
    = (Normal (mkResponse 500 (error_body (message e))),
       mkWorld [] [caught_log cloudflare_label e])
    /\ e = pages_error "API key is not configured.".
Proof.
  destruct (proj2 (proj2 missing_credential_is_a_500)
              (sample_fetch (sample_result sample_text_part))
              (Pages.mkContext (Pages.mkRequest (Normal (sample_body "jobs")))
                 (Pages.mkEnv None)) start eq_refl)
    as [e [Hrun [He _]]].
  exists e. split; [exact Hrun | exact (He _ eq_refl eq_refl)].
Defined.

(** C6, the claim as first stated. A body that does not parse is reported
    by the Pages handler before the missing credential is. *)
Lemma unparsable_body_without_credential :
  fst (Pages.onRequestPost (sample_fetch (sample_result sample_text_part))
         (Pages.mkContext
            (Pages.mkRequest
               (Throw (mkThrown SyntaxError "Unexpected end of JSON input")))
            (Pages.mkEnv None)) start)
  = Normal (mkResponse 500 (error_body "Unexpected end of JSON input"))
  /\ error_body "Unexpected end of JSON input"
     <> error_body "API key is not configured.".
Proof. split; [reflexivity | discriminate]. Qed.

Lemma destructure_object (what : string) (v : JsVal) :
  nullish v = false ->
  destructure what v
  = Normal (get v "resumeText", get v "type", get v "location", get v "datePosted").
Proof. intros Hv. unfold destructure. rewrite Hv. reflexivity. Qed.

Lemma is_POST (m : string) : m = "POST" -> negb (m =? "POST") = false.
Proof. intros ->. reflexivity. Qed.




(** ** The type that is none of the three *)

Lemma Pages_select_prompt_invalid (type location datePosted : JsVal) :
  ~ valid_type type ->
  Pages.select_prompt type location datePosted = Throw invalid_type.
Proof.
  intros Hn. unfold Pages.select_prompt.
  destruct (strict_eq_str type "jobs") eqn:J.
  { apply strict_eq_str_true in J. exfalso. apply Hn. left. exact J. }
  destruct (strict_eq_str type "critique") eqn:C.
  { apply strict_eq_str_true in C. exfalso. apply Hn. right. left. exact C. }
  destruct (strict_eq_str type "contacts") eqn:K.
  { apply strict_eq_str_true in K. exfalso. apply Hn. right. right. exact K. }
  reflexivity.
Qed.

Lemma getSystemPrompt_fallback (critique : string)
  (type location datePosted : JsVal) (filterString : string) :
  ~ valid_type type ->
  Sdk.filter_string location datePosted = Normal filterString ->
  Sdk.getSystemPrompt_with critique type location datePosted
  = Normal Sdk.default_prompt.
Proof.
  intros Hn Hf. unfold Sdk.getSystemPrompt_with. rewrite Hf. simpl and_then.
  destruct (strict_eq_str type "jobs") eqn:J.
  { apply strict_eq_str_true in J. exfalso. apply Hn. left. exact J. }
  destruct (strict_eq_str type "critique") eqn:C.
  { apply strict_eq_str_true in C. exfalso. apply Hn. right. left. exact C. }
  destruct (strict_eq_str type "contacts") eqn:K.
  { apply strict_eq_str_true in K. exfalso. apply Hn. right. right. exact K. }
  reflexivity.
Qed.

Lemma no_search_for_other_types (type : JsVal) :
  ~ valid_type type ->
  strict_eq_str type "jobs" || strict_eq_str type "contacts" = false.
Proof.
  intros Hn. apply orb_false_iff. split; apply strict_eq_str_false; intros E;
    apply Hn; [left | right; right]; exact E.
Qed.

Lemma Sdk_generate_fallback (critique label : string) generateContent key
  (resumeText type location datePosted : JsVal) (filterString : string)
  (w : World Sdk.GenerateCall) :
  ~ valid_type type ->
  Sdk.filter_string location datePosted = Normal filterString ->
  post (try_catch
          (Sdk.generate (Sdk.getSystemPrompt_with critique) generateContent key
             resumeText type location datePosted)
          (Sdk.on_error label)) w
    (fun _ w' => calls w' = (calls w ++ [fallback_call key resumeText])%list).
Proof.
  intros Hn Hf. unfold Sdk.generate, Sdk.on_error, Sdk.await_generate.
  rewrite (getSystemPrompt_fallback critique _ _ _ _ Hn Hf).
  rewrite (no_search_for_other_types type Hn).
  run; reflexivity.
Qed.

(** C1 (as amended). In the Pages handler, with the credential configured
    and a body that parses to a value other than [null], a [type] that is
    none of [jobs], [critique], [contacts] fails with the error
    "Invalid analysis type.", answered 500; the failure is logged and no
    upstream call is issued.  The Vercel and the Worker handler know no such
    error: a POST request with the credential configured, a body that is not
    [null], a [resumeText] and a [type] that are not empty, such a [type],
    and filters from which the filter string can be built (a location that
    converts to a string, a date that is empty or a string) is sent upstream,
    once, under the fallback prompt and without the search tool. *)
Theorem invalid_type_is_refused_by_Pages_only :
  (forall fetch ctx v w,
      Pages.json (Pages.request ctx) = Normal v ->
      nullish v = false ->
      env_truthy (Pages.GEMINI_API_KEY (Pages.env ctx)) = true ->
      ~ valid_type (get v "type") ->
      Pages.onRequestPost fetch ctx w
      = (Normal (mkResponse 500 (error_body (message invalid_type))),
         mkWorld (calls w)
           (console w
            ++ [("Error in Cloudflare function:", LogThrown invalid_type)])%list))
  /\ (forall generateContent key req w filterString,
      env_truthy key = true ->
      Vercel.method req = "POST" ->
      nullish (Vercel.body req) = false ->
      truthy (get (Vercel.body req) "resumeText") = true ->
      truthy (get (Vercel.body req) "type") = true ->
      ~ valid_type (get (Vercel.body req) "type") ->
      Sdk.filter_string (get (Vercel.body req) "location")
        (get (Vercel.body req) "datePosted") = Normal filterString ->
      calls (snd (Vercel.handler generateContent key req w))
      = (calls w ++ [fallback_call key (get (Vercel.body req) "resumeText")])%list)
  /\ (forall generateContent ctx v w filterString,
      env_truthy (Worker.GEMINI_API_KEY (Worker.env ctx)) = true ->
      Worker.method (Worker.request ctx) = "POST" ->
      Worker.json (Worker.request ctx) = Normal v ->
      nullish v = false ->
      truthy (get v "resumeText") = true ->
      truthy (get v "type") = true ->
      ~ valid_type (get v "type") ->
      Sdk.filter_string (get v "location") (get v "datePosted")
      = Normal filterString ->
      calls (snd (Worker.onRequest generateContent ctx w))
      = (calls w ++ [fallback_call (Worker.GEMINI_API_KEY (Worker.env ctx))
                       (get v "resumeText")])%list).
Proof.
  split; [| split].
  - intros fetch ctx v w Hjson Hv Hkey Htype. unfold Pages.onRequestPost.
    unfold try_catch, bind, lift. rewrite Hjson, (destructure_object _ _ Hv).
    cbv beta iota. rewrite (negb_env_truthy_false _ Hkey).
    rewrite (Pages_select_prompt_invalid _ _ _ Htype). reflexivity.
  - intros g key req w fs Hkey Hm Hbody Hr Ht Hn Hf. unfold Vercel.handler.
    rewrite (negb_env_truthy_false key Hkey), (is_POST _ Hm).
    unfold bind at 1. unfold lift. rewrite (destructure_object _ _ Hbody).
    cbv beta iota. rewrite Hr, Ht. cbv beta iota.
    exact (Sdk_generate_fallback _ _ g key _ _ _ _ fs w Hn Hf).
  - intros g ctx v w fs Hkey Hm Hjson Hbody Hr Ht Hn Hf.
    change (post (Worker.onRequest g ctx) w
              (fun _ w' =>
                 calls w'
                 = (calls w ++ [fallback_call (Worker.GEMINI_API_KEY (Worker.env ctx))
                                  (get v "resumeText")])%list)).
    unfold Worker.onRequest.
    rewrite (negb_env_truthy_false _ Hkey), (is_POST _ Hm). cbv beta iota zeta.
    apply post_try_catch, post_bind, post_lift. rewrite Hjson.
    apply post_bind, post_lift. rewrite (destructure_object _ _ Hbody).
    cbv beta iota. rewrite Hr, Ht. cbn [negb].
    unfold Worker.getSystemPrompt, Sdk.generate, Sdk.on_error, Sdk.await_generate.
    rewrite (getSystemPrompt_fallback Worker.critique_prompt _ _ _ _ Hn Hf).
    rewrite (no_search_for_other_types _ Hn).
    run; reflexivity.
Qed.

Lemma Pages_invalid_type_sample :
  Pages.onRequestPost (sample_fetch (sample_result sample_text_part))
    (Pages.mkContext (Pages.mkRequest (Normal (sample_body "unknown")))
       (Pages.mkEnv (Some "secret"))) start
  = (Normal (mkResponse 500 (error_body "Invalid analysis type.")),
     mkWorld [] [("Error in Cloudflare function:", LogThrown invalid_type)]).
Proof.
  apply (proj1 invalid_type_is_refused_by_Pages_only _ _ (sample_body "unknown"));
    [reflexivity | reflexivity | reflexivity |].
  intros [H | [H | H]]; discriminate H.
Defined.

(** C1, the claim as first stated. The Vercel handler sends a request of
    type "unknown" upstream, under its fallback prompt. *)
Lemma Vercel_unknown_type_reaches_upstream :
  answered (Vercel.handler (sample_generate (sample_result sample_text_part))
              (Some "secret")
              (Vercel.mkRequest "POST" (sample_body "unknown")) start)
  = Some 200%Z
  /\ map Sdk.systemInstruction
       (calls (snd (Vercel.handler (sample_generate (sample_result sample_text_part))
                      (Some "secret")
                      (Vercel.mkRequest "POST" (sample_body "unknown")) start)))
     = [Sdk.default_prompt].
Proof. split; vm_compute; reflexivity. Qed.

(** ** The answer built from the upstream result *)

(** The Pages handler degrades to the placeholder: whenever the first part
    of the first candidate carries no text, the answer is still a 200. *)
Lemma Pages_extract_placeholder (result : JsVal) (sources : list JsVal) :
  nullish result = false ->
  truthy (first_text result) = false ->
  collect_sources (first_metadata result) = Normal sources ->
  Pages.extract result = Normal (mkResponse 200 (success_body placeholder sources)).
Proof.
  intros Hr Ht Hs. unfold Pages.extract, member. rewrite Hr. simpl.
  fold (first_text result). fold (first_metadata result).
  rewrite Hs. unfold js_or. rewrite Ht. reflexivity.
Qed.

Lemma Pages_textless_answer :
  Pages.onRequestPost (sample_fetch (plain_result textless_part))
    (Pages.mkContext (Pages.mkRequest (Normal (sample_body "critique")))
       (Pages.mkEnv (Some "secret"))) start
  = (Normal (mkResponse 200 (success_body placeholder [])),
     mkWorld
       [Pages.mkFetchCall (Pages.API_URL "secret") "POST"
          [("Content-Type", "application/json")]
          (Pages.mkPayload
             [mkContent "user"
                [JStr ("Here is my resume:" ++ nl ++ nl ++ sample_resume_text)]]
             Pages.critique_prompt [])]
       []).
Proof. vm_compute. reflexivity. Qed.

Lemma Pages_truncated_answer :
  fst (Pages.onRequestPost (sample_fetch truncated_result)
         (Pages.mkContext (Pages.mkRequest (Normal (sample_body "critique")))
            (Pages.mkEnv (Some "secret"))) start)
  = Normal (mkResponse 200 (success_body placeholder [])).
Proof. vm_compute. reflexivity. Qed.

(** C5, on the Vercel handler. The upstream call succeeds but the first
    candidate carries no text.  When it has no part at all the handler
    answers 500; when its first part is not a text part the handler answers
    200 with [text] undefined.  In neither case is the placeholder returned. *)
Theorem Vercel_textless_answer_has_no_placeholder :
  fst (Vercel.handler (sample_generate truncated_result) (Some "secret")
         (Vercel.mkRequest "POST" (sample_body "critique")) start)
  = Normal (mkResponse 500
              (error_body
                 "Error generating content: Cannot read properties of undefined (reading '0')"))
  /\ fst (Vercel.handler (sample_generate (plain_result textless_part)) (Some "secret")
            (Vercel.mkRequest "POST" (sample_body "critique")) start)
     = Normal (mkResponse 200 (success_body JUndefined []))
  /\ success_body JUndefined [] <> success_body placeholder [].
Proof. repeat split; [vm_compute; reflexivity .. | discriminate]. Qed.

(** C9, on the Worker handler. For an upstream result whose first part is
    not a text part the serialized answer is a 200 that holds [sources]
    alone: neither the full payload nor an error payload. *)
Theorem Worker_textless_answer_is_partial :
  exists r,
    fst (Worker.onRequest (sample_generate (plain_result textless_part))
           (Worker.mkContext
              (Worker.mkRequest "POST" (Normal (sample_body "critique")))
              (Worker.mkEnv (Some "secret"))) start)
    = Normal r
    /\ status r = 200%Z
    /\ wire r = JObj [("sources", JArr [])]
    /\ ~ full_payload r
    /\ ~ error_payload r.
Proof.
  eexists. split; [vm_compute; reflexivity |].
  split; [reflexivity | split; [reflexivity | split]].
  - intros [_ [_ H]]. discriminate H.
  - intros [H _]. discriminate H.
Qed.

(** An absent body leaves the Vercel handler through an exception: the
    destructuring stands outside its [try]. *)
Lemma Vercel_absent_body_throws :
  fst (Vercel.handler (sample_generate (plain_result sample_text_part)) (Some "secret")
         (Vercel.mkRequest "POST" JUndefined) start)
  = type_error
      "Cannot destructure property 'resumeText' of 'request.body' as it is undefined.".
Proof. vm_compute. reflexivity. Qed.

(** ** Prompts and their filter clause *)

Lemma append_assoc (a b c : string) : (a ++ b) ++ c = a ++ b ++ c.
Proof. induction a as [| x a IH]; simpl; [| rewrite IH]; reflexivity. Qed.

Lemma prefix_append (p q : string) : String.prefix p (p ++ q) = true.
Proof.
  induction p as [| x p IH]; simpl.
  - destruct q; reflexivity.
  - destruct (ascii_dec x x) as [_ | N]; [exact IH | contradiction].
Qed.

Lemma prefix_split (p s : string) :
  String.prefix p s = true -> exists q, s = p ++ q.
Proof.
  revert s. induction p as [| x p IH]; intros s H.
  - exists s. reflexivity.
  - destruct s as [| y s]; simpl in H; [discriminate |].
    destruct (ascii_dec x y) as [-> | _]; [| discriminate].
    destruct (IH s H) as [q ->]. exists q. reflexivity.
Qed.

Lemma contains_unfold (pat s : string) :
  contains pat s
  = String.prefix pat s
    || match s with
       | EmptyString => false
       | String _ s' => contains pat s'
       end.
Proof. destruct s; reflexivity. Qed.

Lemma contains_iff (pat s : string) : contains pat s = true <-> Contains pat s.
Proof.
  split.
  - induction s as [| c s IH]; rewrite contains_unfold, orb_true_iff; intros [H | H].
    + destruct (prefix_split _ _ H) as [q E]. exists EmptyString, q. exact E.
    + discriminate.
    + destruct (prefix_split _ _ H) as [q E]. exists EmptyString, q. exact E.
    + destruct (IH H) as [pre [post E]].
      exists (String c pre), post. simpl. rewrite E. reflexivity.
  - intros [pre [post ->]]. induction pre as [| c pre IH].
    + rewrite contains_unfold.
      change (EmptyString ++ pat ++ post) with (pat ++ post).
      rewrite prefix_append. reflexivity.
    + change (String c pre ++ pat ++ post) with (String c (pre ++ pat ++ post)).
      rewrite contains_unfold. cbv iota. rewrite IH. apply orb_true_r.
Qed.

Lemma not_contains (pat s : string) : contains pat s = false -> ~ Contains pat s.
Proof. intros H C. apply contains_iff in C. congruence. Qed.

Lemma Contains_append_l (pat a b : string) : Contains pat b -> Contains pat (a ++ b).
Proof.
  intros [pre [post ->]]. exists (a ++ pre), post. symmetry. apply append_assoc.
Qed.

Lemma Contains_append_r (pat a b : string) : Contains pat a -> Contains pat (a ++ b).
Proof.
  intros [pre [post ->]]. exists pre, (post ++ b).
  rewrite !append_assoc. reflexivity.
Qed.

Lemma Contains_here (pat post : string) : Contains pat (pat ++ post).
Proof. exists EmptyString, post. reflexivity. Qed.

(** The prompts of [getSystemPrompt] end with [filterString]. *)
Lemma jobs_prompt_append (filterString : string) :
  Sdk.jobs_prompt filterString = Sdk.jobs_prompt EmptyString ++ filterString.
Proof. reflexivity. Qed.

Lemma contacts_prompt_append (filterString : string) :
  Sdk.contacts_prompt filterString = Sdk.contacts_prompt EmptyString ++ filterString.
Proof. reflexivity. Qed.

(** No filter supplied: [filterString] stays empty. *)
Lemma filter_string_empty (location datePosted : JsVal) :
  truthy location = false ->
  truthy datePosted = false \/ datePosted = JStr "any" ->
  Sdk.filter_string location datePosted = Normal EmptyString.
Proof.
  intros Hl Hd. unfold Sdk.filter_string. rewrite Hl.
  destruct Hd as [Hd | ->]; [rewrite Hd |]; reflexivity.
Qed.

(** A location supplied: [filterString] is the clause, naming the location
    and then the date, if one is supplied that is a string other than "any". *)
Lemma filter_string_location (location datePosted : JsVal) (text : string) :
  truthy location = true ->
  to_string location = Normal text ->
  truthy datePosted = false \/ (exists s, datePosted = JStr s) ->
  exists posted,
    Sdk.filter_string location datePosted
    = Normal (nl ++ nl ++ "**CRITICAL: " ++ filter_clause ++ " "
              ++ (" (Location: " ++ text ++ ")") ++ posted ++ "**")
    /\ (forall s, datePosted = JStr s -> s <> EmptyString -> s <> "any" ->
          posted = " (Posted: " ++ replace_first "_" " " s ++ ")").
Proof.
  intros Hl Htext Hd. unfold Sdk.filter_string. rewrite Hl, Htext.
  destruct Hd as [Hd | [s ->]].
  - rewrite Hd. exists EmptyString. split.
    + simpl. rewrite !append_assoc. reflexivity.
    + intros s ->. simpl in Hd. intros Hs.
      apply truthy_string in Hs. simpl in Hs. congruence.
  - destruct (truthy (JStr s) && negb (strict_eq_str (JStr s) "any")) eqn:E.
    + exists (" (Posted: " ++ replace_first "_" " " s ++ ")"). split.
      * simpl. rewrite !append_assoc. simpl. rewrite !append_assoc. reflexivity.
      * intros s' [= <-] _ _. reflexivity.
    + exists EmptyString. split.
      * simpl. rewrite !append_assoc. reflexivity.
      * intros s' [= <-] Hs Hany. exfalso.
        apply andb_false_iff in E. destruct E as [E | E].
        -- apply truthy_string in Hs. congruence.
        -- apply negb_false_iff in E. apply strict_eq_str_true in E.
           injection E as E. contradiction.
Qed.

Lemma getSystemPrompt_unfiltered (critique : string) (type location datePosted : JsVal) :
  contains filter_clause critique = false ->
  valid_type type ->
  Sdk.filter_string location datePosted = Normal EmptyString ->
  exists prompt,
    Sdk.getSystemPrompt_with critique type location datePosted = Normal prompt
    /\ ~ Contains filter_clause prompt.
Proof.
  intros Hc Ht Hf. unfold Sdk.getSystemPrompt_with. rewrite Hf.
  destruct Ht as [-> | [-> | ->]]; eexists; (split; [reflexivity |]);
    apply not_contains; [vm_compute; reflexivity | exact Hc | vm_compute; reflexivity].
Qed.

Lemma getSystemPrompt_filtered (critique : string) (type location datePosted : JsVal)
  (filterString : string) :
  valid_type type ->
  type <> JStr "critique" ->
  Sdk.filter_string location datePosted = Normal filterString ->
  exists base,
    Sdk.getSystemPrompt_with critique type location datePosted
    = Normal (base ++ filterString).
Proof.
  intros Ht Hn Hf. unfold Sdk.getSystemPrompt_with. rewrite Hf.
  destruct Ht as [-> | [-> | ->]]; [| congruence |].
  - exists (Sdk.jobs_prompt EmptyString). simpl and_then.
    rewrite jobs_prompt_append. reflexivity.
  - exists (Sdk.contacts_prompt EmptyString). simpl and_then.
    rewrite contacts_prompt_append. reflexivity.
Qed.

Lemma getSystemPrompt_filter_clause (critique : string)
  (type location datePosted : JsVal) :
  contains filter_clause critique = false ->
  valid_type type ->
  filter_clause_rule (Sdk.getSystemPrompt_with critique) type location datePosted.
Proof.
  intros Hc Ht. unfold filter_clause_rule. split; [| split].
  - intros Hl Hd. apply getSystemPrompt_unfiltered; auto.
    apply filter_string_empty; assumption.
  - intros prompt Hrun Hin.
    assert (Hcr : type <> JStr "critique").
    { intros ->. unfold Sdk.getSystemPrompt_with in Hrun.
      destruct (Sdk.filter_string location datePosted); [| discriminate].
      simpl in Hrun. injection Hrun as <-.
      exact (not_contains _ _ Hc Hin). }
    split; [exact Hcr |].
    destruct (truthy location) eqn:Hl; [left; reflexivity | right].
    destruct (truthy datePosted) eqn:Hd.
    + split; [reflexivity |]. intros ->.
      destruct (getSystemPrompt_unfiltered critique type location (JStr "any") Hc Ht
                  (filter_string_empty _ _ Hl (or_intror eq_refl)))
        as [p [Hp Hnot]].
      rewrite Hp in Hrun. injection Hrun as <-. contradiction.
    + exfalso.
      destruct (getSystemPrompt_unfiltered critique type location datePosted Hc Ht
                  (filter_string_empty _ _ Hl (or_introl Hd)))
        as [p [Hp Hnot]].
      rewrite Hp in Hrun. injection Hrun as <-. contradiction.
  - intros text Hcr Hl Htext Hd.
    destruct (filter_string_location location datePosted text Hl Htext Hd)
      as [posted [Hf _]].
    destruct (getSystemPrompt_filtered critique type location datePosted _ Ht Hcr Hf)
      as [base Hrun].
    eexists. split; [exact Hrun |]. split.
    + apply Contains_append_l. do 3 apply Contains_append_l. apply Contains_here.
    + apply Contains_append_l. do 5 apply Contains_append_l.
      rewrite <- append_assoc. apply Contains_here.
Qed.

Lemma append_empty_r (a : string) : a ++ EmptyString = a.
Proof. induction a as [| x a IH]; simpl; [| rewrite IH]; reflexivity. Qed.

Lemma Contains_refl (pat : string) : Contains pat pat.
Proof. exists EmptyString, EmptyString. simpl. rewrite append_empty_r. reflexivity. Qed.

(** What occurs in a line occurs in the lines joined. *)
Lemma Contains_concat (sep pat line : string) (lines : list string) :
  In line lines -> Contains pat line -> Contains pat (String.concat sep lines).
Proof.
  intros Hin Hc. induction lines as [| x rest IH]; [contradiction |].
  destruct rest as [| y rest].
  - destruct Hin as [-> | []]. exact Hc.
  - change (String.concat sep (x :: y :: rest))
      with (x ++ sep ++ String.concat sep (y :: rest)).
    destruct Hin as [-> | Hin].
    + apply Contains_append_r. exact Hc.
    + do 2 apply Contains_append_l. exact (IH Hin).
Qed.

Lemma written_as_any (filter : JsVal) : truthy filter = false -> written_as filter "any".
Proof. intros H. unfold written_as, js_or. rewrite H. reflexivity. Qed.

Lemma Pages_prompts_filter_lines (location datePosted : JsVal) :
  pages_filter_lines location datePosted.
Proof.
  unfold pages_filter_lines, written_as, Pages.jobs_prompt, Pages.contacts_prompt.
  split; [| split; [| split; [| split]]].
  - intros location_text date_text -> ->. unfold and_then.
    eexists. split; [reflexivity |]. split; [| split].
    + eapply Contains_concat; [do 4 right; left; reflexivity |].
      apply contains_iff. vm_compute. reflexivity.
    + eapply Contains_concat; [do 5 right; left; reflexivity |].
      apply (Contains_append_l _ "                        - ").
      apply Contains_refl.
    + eapply Contains_concat; [do 6 right; left; reflexivity |].
      apply (Contains_append_l _ "                        - ").
      apply Contains_refl.
  - intros location_text ->. unfold and_then.
    eexists. split; [reflexivity |]. split.
    + eapply Contains_concat; [do 4 right; left; reflexivity |].
      apply Contains_append_r. apply contains_iff. vm_compute. reflexivity.
    + eapply Contains_concat; [do 4 right; left; reflexivity |].
      apply (Contains_append_l _
               "                    3.  **FILTER** your search based on the user-provided ").
      exists EmptyString, ".".
      change (("location: " ++ dq ++ location_text ++ dq ++ ".")
              = ("location: " ++ dq ++ location_text ++ dq) ++ ".").
      rewrite !append_assoc. reflexivity.
  - apply written_as_any.
  - apply written_as_any.
  - apply not_contains. vm_compute. reflexivity.
Qed.

(** C8 (as amended). [getSystemPrompt], in the Vercel and in the Worker file:
    for each of the three types the filter clause is in the prompt only when
    a location or a date other than "any" is supplied and not empty; with
    both absent, a date of "any" counting as absent, the prompt is built and
    carries no filter clause; the critique prompt never carries one; and a
    location supplied for [jobs] or [contacts] that converts to a string is
    appended as that string, when the date is empty or a string.  The Pages
    prompts for [jobs] and [contacts], whenever their filters convert to
    strings, are built and carry their filter lines, a filter that is not
    supplied being written as "any". *)
Theorem filter_clause_only_for_supplied_filters (type location datePosted : JsVal) :
  valid_type type ->
  filter_clause_rule Vercel.getSystemPrompt type location datePosted
  /\ filter_clause_rule Worker.getSystemPrompt type location datePosted
  /\ pages_filter_lines location datePosted.
Proof.
  intros Ht. split; [| split].
  - apply getSystemPrompt_filter_clause; [vm_compute; reflexivity | exact Ht].
  - apply getSystemPrompt_filter_clause; [vm_compute; reflexivity | exact Ht].
  - apply Pages_prompts_filter_lines.
Qed.

Lemma filter_clause_sample :
  filter_clause_rule Vercel.getSystemPrompt (JStr "jobs") (JStr "Seattle") (JStr "any")
  /\ filter_clause_rule Worker.getSystemPrompt (JStr "jobs") (JStr "Seattle") (JStr "any")
  /\ pages_filter_lines (JStr "Seattle") (JStr "any").
Proof.
  apply (filter_clause_only_for_supplied_filters
           (JStr "jobs") (JStr "Seattle") (JStr "any")).
  left. reflexivity.
Defined.

(** C8, the claim as first stated. The Pages prompt for [jobs] names its
    filters even when none is supplied. *)
Lemma Pages_prompt_always_filters :
  exists prompt,
    Pages.select_prompt (JStr "jobs") JUndefined JUndefined
    = Normal (prompt, [google_search])
    /\ Contains pages_filter_clause prompt
    /\ Contains ("- Location: " ++ dq ++ "any" ++ dq) prompt
    /\ Contains ("- Date Posted: " ++ dq ++ "any" ++ dq) prompt.
Proof.
  eexists. split; [reflexivity |].
  repeat split; apply contains_iff; vm_compute; reflexivity.
Qed.

(** ** Shape of the answers, and the number of upstream calls *)

Lemma truthy_js_or (a b : JsVal) : truthy b = true -> truthy (js_or a b) = true.
Proof. intros Hb. unfold js_or. destruct (truthy a) eqn:E; assumption. Qed.

Lemma full_payload_intro (text : JsVal) (sources : list JsVal) :
  truthy text = true -> full_payload (mkResponse 200 (success_body text sources)).
Proof.
  intros Ht. split; [reflexivity | split].
  - exists text, sources. split; [reflexivity | exact Ht].
  - destruct text; try discriminate Ht; reflexivity.
Qed.

Lemma error_payload_intro (msg : string) :
  error_payload (mkResponse 500 (error_body msg)).
Proof.
  split; [reflexivity | split]; [exists msg; reflexivity | reflexivity].
Qed.

Lemma Pages_extract_full (result : JsVal) (r : Response) :
  Pages.extract result = Normal r -> full_payload r.
Proof.
  unfold Pages.extract. destruct (member result "candidates") as [cs | e];
    [| discriminate].
  simpl and_then.
  destruct (collect_sources (opt_get (opt_first cs) "groundingMetadata"))
    as [sources | e]; [| discriminate].
  intros [= <-]. apply full_payload_intro. apply truthy_js_or. reflexivity.
Qed.

Lemma Pages_run_shape fetch ctx :
  post (Pages.onRequestPost fetch ctx) start
    (fun c w => exists r, c = Normal r
                /\ (full_payload r \/ error_payload r)
                /\ (length (calls w) <= 1)%nat).
Proof.
  unfold Pages.onRequestPost, Pages.await_fetch, start.
  run; eexists; (split; [reflexivity |]);
    (split; [| cbn [calls app length]; lia]);
    try (right; apply error_payload_intro).
  left. eapply Pages_extract_full. eassumption.
Qed.

(** In the Pages handler every invocation is answered, with the full payload
    or with an error payload, after at most one upstream call. *)
Lemma Pages_answer_shape fetch ctx :
  exists r,
    fst (Pages.onRequestPost fetch ctx start) = Normal r
    /\ (full_payload r \/ error_payload r)
    /\ (length (calls (snd (Pages.onRequestPost fetch ctx start))) <= 1)%nat.
Proof. exact (Pages_run_shape fetch ctx). Qed.

(** No handler calls the upstream API twice: nothing is retried. *)
Lemma at_most_one_upstream_call :
  (forall fetch ctx,
      (upstream_calls (Pages.onRequestPost fetch ctx start) <= 1)%nat)
  /\ (forall generateContent key req,
      (upstream_calls (Vercel.handler generateContent key req start) <= 1)%nat)
  /\ (forall generateContent ctx,
      (upstream_calls (Worker.onRequest generateContent ctx start) <= 1)%nat).
Proof.
  split; [| split].
  - intros fetch ctx.
    destruct (Pages_run_shape fetch ctx) as [r [_ [_ H]]]. exact H.
  - intros g key req.
    change (post (Vercel.handler g key req) start
              (fun _ w => (length (calls w) <= 1)%nat)).
    unfold Vercel.handler, Sdk.generate, Sdk.on_error, Sdk.await_generate, start.
    run; cbn [calls app length]; lia.
  - intros g ctx.
    change (post (Worker.onRequest g ctx) start
              (fun _ w => (length (calls w) <= 1)%nat)).
    unfold Worker.onRequest, Sdk.generate, Sdk.on_error, Sdk.await_generate, start.
    run; cbn [calls app length]; lia.
Qed.

(** A run of the Pages handler, taken as far as its upstream call. *)
Ltac pages_to_fetch Hready :=
  let Hjson := fresh in let Hv := fresh in let Hkey := fresh in
  let Hsel := fresh in let Hres := fresh in
  destruct Hready as [Hjson [Hv [Hkey [Hsel Hres]]]];
  unfold Pages.onRequestPost, Pages.await_fetch, try_catch, bind, lift, await_call,
    console_error, throw, ret;
  rewrite Hjson, (destructure_object _ _ Hv); cbv beta iota zeta;
  rewrite (negb_env_truthy_false _ Hkey), Hsel; cbv beta iota zeta;
  rewrite Hres; cbv beta iota zeta.

(** The Pages handler degrades.  For a request taken as far as the upstream
    call, an [ok] reply whose body parses to a result that is not [null],
    whose first candidate's first part carries no text and whose sources can
    be collected is answered 200 with the placeholder and those sources,
    after the one call and without a log entry. *)
Theorem Pages_degrades_to_placeholder fetch ctx v chosen resume result sources w :
  pages_ready ctx v chosen resume ->
  fetch (pages_call (Pages.GEMINI_API_KEY (Pages.env ctx)) resume chosen)
  = Pages.FetchResponse true (Normal result) ->
  nullish result = false ->
  truthy (first_text result) = false ->
  collect_sources (first_metadata result) = Normal sources ->
  Pages.onRequestPost fetch ctx w
  = (Normal (mkResponse 200 (success_body placeholder sources)),
     mkWorld
       (calls w ++ [pages_call (Pages.GEMINI_API_KEY (Pages.env ctx)) resume chosen])
       (console w)).
Proof.
  intros Hready Hfetch Hr Htext Hs. destruct chosen as [prompt tools].
  unfold pages_call, pages_user_content in *. cbn [fst snd] in *.
  pages_to_fetch Hready. rewrite Hfetch. cbv beta iota. cbn [negb].
  rewrite (Pages_extract_placeholder result sources Hr Htext Hs). reflexivity.
Qed.

Lemma Pages_degrades_sample :
  Pages.onRequestPost (sample_fetch truncated_result)
    (Pages.mkContext (Pages.mkRequest (Normal (sample_body "critique")))
       (Pages.mkEnv (Some "secret"))) start
  = (Normal (mkResponse 200 (success_body placeholder [])),
     mkWorld
       [pages_call (Some "secret") sample_resume_text (Pages.critique_prompt, [])] []).
Proof.
  apply (Pages_degrades_to_placeholder (sample_fetch truncated_result)
           (Pages.mkContext (Pages.mkRequest (Normal (sample_body "critique")))
              (Pages.mkEnv (Some "secret")))
           (sample_body "critique") (Pages.critique_prompt, []) sample_resume_text
           truncated_result [] start);
    try reflexivity.
  repeat split.
Defined.

(** ** The scenarios of the specification, end to end *)

(** A critique of the sample resume: no search tool in the one outbound
    call, a text in the answer, and no source when the upstream result has no
    grounding metadata. *)
Example critique_end_to_end :
  Pages.onRequestPost (sample_fetch (plain_result sample_text_part))
    (Pages.mkContext (Pages.mkRequest (Normal (sample_body "critique")))
       (Pages.mkEnv (Some "secret"))) start
  = (Normal (mkResponse 200 (success_body (JStr "## Resume Critique") [])),
     mkWorld
       [Pages.mkFetchCall (Pages.API_URL "secret") "POST"
          [("Content-Type", "application/json")]
          (Pages.mkPayload
             [mkContent "user"
                [JStr ("Here is my resume:" ++ nl ++ nl ++ sample_resume_text)]]
             Pages.critique_prompt [])]
       [])
  /\ map sdk_has_search
       (calls (snd (Vercel.handler (sample_generate (plain_result sample_text_part))
                      (Some "secret")
                      (Vercel.mkRequest "POST" (sample_body "critique")) start)))
     = [false].
Proof. split; vm_compute; reflexivity. Qed.

(** Two grounding attributions, one with an empty title: one source, in the
    three handlers. *)
Example one_source_end_to_end :
  fst (Pages.onRequestPost (sample_fetch (sample_result sample_text_part))
         (Pages.mkContext (Pages.mkRequest (Normal (sample_body "jobs")))
            (Pages.mkEnv (Some "secret"))) start)
  = Normal (mkResponse 200
              (success_body (JStr "## Resume Critique")
                 [JObj [("uri", JStr "https://example.com/a"); ("title", JStr "A")]]))
  /\ fst (Vercel.handler (sample_generate (sample_result sample_text_part))
            (Some "secret") (Vercel.mkRequest "POST" (sample_body "jobs")) start)
     = Normal (mkResponse 200
                 (success_body (JStr "## Resume Critique")
                    [JObj [("uri", JStr "https://example.com/a"); ("title", JStr "A")]]))
  /\ fst (Worker.onRequest (sample_generate (sample_result sample_text_part))
            (Worker.mkContext (Worker.mkRequest "POST" (Normal (sample_body "jobs")))
               (Worker.mkEnv (Some "secret"))) start)
     = Normal (mkResponse 200
                 (success_body (JStr "## Resume Critique")
                    [JObj [("uri", JStr "https://example.com/a"); ("title", JStr "A")]])).
Proof. repeat split; vm_compute; reflexivity. Qed.

(** [{type: "jobs", location: "Seattle", datePosted: "any"}]: the prompt of
    [getSystemPrompt] names the Seattle filter and no date. *)
Example jobs_in_Seattle_any_date :
  exists prompt,
    Vercel.getSystemPrompt (JStr "jobs") (JStr "Seattle") (JStr "any") = Normal prompt
    /\ contains " (Location: Seattle)" prompt = true
    /\ contains "(Posted:" prompt = false.
Proof. eexists. repeat split; vm_compute; reflexivity. Qed.

(** * More of the handlers' behaviour *)

(** ** The sources, whatever the upstream metadata holds *)

Lemma complete_pair_entry (a : JsVal) : complete a = true -> complete_pair (entry_of a).
Proof.
  unfold complete. intros H. apply andb_true_iff in H. destruct H as [Hu Ht].
  exists (web_uri a), (web_title a). repeat split; assumption.
Qed.

Lemma complete_pair_serialized (s : JsVal) :
  complete_pair s -> keys (serialized s) = ["uri"; "title"].
Proof.
  intros [u [t [-> [Hu Ht]]]].
  destruct u; try discriminate Hu; destruct t; try discriminate Ht; reflexivity.
Qed.

(** Whatever the grounding metadata holds, the sources that [collect_sources]
    returns are [{uri, title}] pairs whose two fields pass the filter, so the
    serializer drops neither field; and there are no more sources than
    attributions. *)
Theorem sources_are_complete_pairs (groundingMetadata : JsVal) (sources : list JsVal) :
  collect_sources groundingMetadata = Normal sources ->
  Forall complete_pair sources
  /\ Forall (fun s => keys (serialized s) = ["uri"; "title"]) sources
  /\ (forall attributions,
        get groundingMetadata "groundingAttributions" = JArr attributions ->
        (length sources <= length attributions)%nat).
Proof.
  unfold collect_sources. intros H.
  assert (Hpairs : Forall complete_pair sources
                   /\ (forall attributions,
                         get groundingMetadata "groundingAttributions" = JArr attributions ->
                         (length sources <= length attributions)%nat)).
  { destruct (truthy groundingMetadata
              && truthy (get groundingMetadata "groundingAttributions")).
    - destruct (get groundingMetadata "groundingAttributions") as [ | | | | | atts | ];
        try discriminate H.
      destruct (array_map source_of atts) as [mapped |] eqn:Hmap; [| discriminate H].
      simpl in H. injection H as <-.
      destruct (array_map_source_of_Normal _ _ Hmap) as [-> _].
      rewrite filter_map_entries. split.
      + apply Forall_forall. intros s Hs. apply in_map_iff in Hs.
        destruct Hs as [a [<- Ha]]. apply filter_In in Ha.
        apply complete_pair_entry. tauto.
      + intros attributions [= <-]. rewrite length_map. apply filter_length_le.
    - injection H as <-. split; [constructor | intros; apply Nat.le_0_l]. }
  destruct Hpairs as [Hp Hlen]. split; [exact Hp | split; [| exact Hlen]].
  eapply Forall_impl; [| exact Hp]. intros s. apply complete_pair_serialized.
Qed.

Lemma sources_are_complete_pairs_sample :
  Forall complete_pair
    [JObj [("uri", JStr "https://example.com/a"); ("title", JStr "A")]]
  /\ Forall (fun s => keys (serialized s) = ["uri"; "title"])
       [JObj [("uri", JStr "https://example.com/a"); ("title", JStr "A")]]
  /\ (forall attributions,
        get sample_metadata "groundingAttributions" = JArr attributions ->
        (length [JObj [("uri", JStr "https://example.com/a"); ("title", JStr "A")]]
         <= length attributions)%nat).
Proof.
  exact (sources_are_complete_pairs sample_metadata
           [JObj [("uri", JStr "https://example.com/a"); ("title", JStr "A")]]
           eq_refl).
Defined.

(** [collect_sources] fails exactly when the attributions are there and are
    not an array of values other than [null] and [undefined]; what it throws
    is then a TypeError. *)
Theorem collect_sources_fails_iff (groundingMetadata : JsVal) :
  ((exists e, collect_sources groundingMetadata = Throw e)
   <-> truthy groundingMetadata = true
       /\ truthy (get groundingMetadata "groundingAttributions") = true
       /\ (forall attributions,
             get groundingMetadata "groundingAttributions" = JArr attributions ->
             Exists (fun a => nullish a = true) attributions))
  /\ (forall e, collect_sources groundingMetadata = Throw e -> name e = TypeError).
Proof.
  unfold collect_sources.
  destruct (truthy groundingMetadata) eqn:Hgm; simpl.
  2: { split; [| discriminate]. split; [intros [e H]; discriminate | intros [H _]; discriminate]. }
  destruct (truthy (get groundingMetadata "groundingAttributions")) eqn:Hat.
  2: { split; [| discriminate]. split; [intros [e H]; discriminate |].
       intros [_ [H _]]; discriminate. }
  destruct (get groundingMetadata "groundingAttributions") as [ | | | | | atts | ];
    try (split; [split; [intros _; repeat split; discriminate
                        | intros _; eexists; reflexivity]
                | intros e [= <-]; reflexivity]).
  destruct (Forall_Exists_dec (fun a => nullish a = false)
              (fun a => Bool.bool_dec (nullish a) false) atts) as [Hall | Hex].
  - rewrite (array_map_source_of atts Hall). simpl.
    split; [| discriminate]. split; [intros [e H]; discriminate |].
    intros [_ [_ H]]. exfalso. specialize (H atts eq_refl).
    apply Exists_exists in H. destruct H as [a [Hin Hn]].
    rewrite Forall_forall in Hall. rewrite (Hall a Hin) in Hn. discriminate.
  - assert (Hnull : Exists (fun a => nullish a = true) atts).
    { eapply Exists_impl; [| exact Hex]. intros a Ha. simpl in Ha.
      destruct (nullish a); congruence. }
    destruct (array_map_source_of_Throw atts Hnull) as [e [-> He]]. simpl.
    split.
    + split; [intros _ | intros _; exists e; reflexivity].
      repeat split. intros attributions [= <-]. exact Hnull.
    + intros e' [= <-]. exact He.
Qed.

(** ** Answers and exceptions of the SDK handlers *)

Lemma negb_true_false (b : bool) : negb b = true -> b = false.
Proof. destruct b; [discriminate | reflexivity]. Qed.

Lemma negb_false_true (b : bool) : negb b = false -> b = true.
Proof. destruct b; [reflexivity | discriminate]. Qed.

Lemma Sdk_extract_answer (response : JsVal) (r : Response) :
  Sdk.extract response = Normal r ->
  status r = 200%Z /\ exists text sources, body r = success_body text sources.
Proof.
  unfold Sdk.extract.
  destruct (member response "candidates") as [cs |]; [simpl | discriminate].
  destruct (member0 cs) as [cand |]; [simpl | discriminate].
  destruct (member cand "content") as [content |]; [simpl | discriminate].
  destruct (member content "parts") as [parts |]; [simpl | discriminate].
  destruct (member0 parts) as [part |]; [simpl | discriminate].
  destruct (member part "text") as [text |]; [simpl | discriminate].
  destruct (member cand "groundingMetadata") as [gm |]; [simpl | discriminate].
  destruct (collect_sources gm) as [sources |]; [simpl | discriminate].
  intros [= <-]. split; [reflexivity | do 2 eexists; reflexivity].
Qed.

Ltac sdk_answer_cases :=
  first
    [ left; eapply Sdk_extract_answer; eassumption
    | right; split; [auto | eexists; reflexivity] ].

(** The Worker handler lets no exception escape: every invocation is
    answered, with a 200 that holds [text] and [sources] or with a 400, 405
    or 500 that holds [error]. *)
Theorem Worker_always_answers generateContent ctx w :
  exists r, fst (Worker.onRequest generateContent ctx w) = Normal r /\ sdk_answer r.
Proof.
  change (post (Worker.onRequest generateContent ctx) w
            (fun c _ => exists r, c = Normal r /\ sdk_answer r)).
  unfold Worker.onRequest, Sdk.generate, Sdk.on_error, Sdk.await_generate.
  run; eexists; (split; [reflexivity |]); unfold sdk_answer; simpl; sdk_answer_cases.
Qed.

(** The Vercel handler reads [request.body] outside its [try]: an exception
    leaves it exactly when the credential is configured, the method is POST
    and the body is [null] or absent; every other invocation is answered,
    with one of the payloads above. *)
Theorem Vercel_throws_iff_body_absent generateContent key req w :
  ((exists e, fst (Vercel.handler generateContent key req w) = Throw e)
   <-> env_truthy key = true
       /\ Vercel.method req = "POST"
       /\ nullish (Vercel.body req) = true)
  /\ (forall r, fst (Vercel.handler generateContent key req w) = Normal r ->
                sdk_answer r).
Proof.
  change (post (Vercel.handler generateContent key req) w
            (fun c _ =>
               ((exists e, c = Throw e)
                <-> env_truthy key = true
                    /\ Vercel.method req = "POST"
                    /\ nullish (Vercel.body req) = true)
               /\ (forall r, c = Normal r -> sdk_answer r))).
  unfold Vercel.handler, Sdk.generate, Sdk.on_error, Sdk.await_generate.
  run;
    repeat match goal with
           | H : negb _ = true |- _ => apply negb_true_false in H
           | H : negb _ = false |- _ => apply negb_false_true in H
           | H : destructure _ _ = _ |- _ => unfold destructure in H
           end.
  all: split;
    [ split;
      [ intros [e0 He0]; try discriminate He0
      | intros [Hk [Hm Hb]] ]
    | intros r0 Hr0; try discriminate Hr0; injection Hr0 as <-;
      unfold sdk_answer; simpl; sdk_answer_cases ].
  all: try congruence.
  all: try (rewrite Hm in *; discriminate).
  all: try (destruct (nullish (Vercel.body req)); congruence).
  all: try (repeat split; try assumption).
  all: try (apply String.eqb_eq; assumption).
  all: try (destruct (nullish (Vercel.body req)); [reflexivity | discriminate]).
  all: try (rewrite Hb in *; discriminate).
  all: eexists; reflexivity.
Qed.

(** ** What a call carries, and when one is issued *)

Lemma Pages_select_prompt_valid (type location datePosted : JsVal) chosen :
  Pages.select_prompt type location datePosted = Normal chosen -> valid_type type.
Proof.
  unfold Pages.select_prompt, valid_type.
  destruct (strict_eq_str type "jobs") eqn:J.
  { apply strict_eq_str_true in J. auto. }
  destruct (strict_eq_str type "critique") eqn:C.
  { apply strict_eq_str_true in C. auto. }
  destruct (strict_eq_str type "contacts") eqn:K.
  { apply strict_eq_str_true in K. auto. }
  discriminate.
Qed.

Ltac bools :=
  repeat match goal with
         | H : negb _ = true |- _ => apply negb_true_false in H
         | H : negb _ = false |- _ => apply negb_false_true in H
         end.

(** The Pages handler calls the upstream API only with a body that parsed to
    a value other than [null], the credential configured, one of the three
    types, a prompt chosen for it and a resume that converted to a string;
    the call is then a POST of JSON to the model endpoint with the credential
    as [key], whose one user part is that string under its fixed heading and
    whose system prompt and tools are those chosen for the type. *)
Theorem Pages_call_is_as_built fetch ctx c :
  In c (calls (snd (Pages.onRequestPost fetch ctx start))) ->
  exists v chosen resume,
    pages_ready ctx v chosen resume
    /\ valid_type (get v "type")
    /\ c = pages_call (Pages.GEMINI_API_KEY (Pages.env ctx)) resume chosen.
Proof.
  revert c.
  change (post (Pages.onRequestPost fetch ctx) start
            (fun _ w => forall c, In c (calls w) ->
               exists v chosen resume,
                 pages_ready ctx v chosen resume
                 /\ valid_type (get v "type")
                 /\ c = pages_call (Pages.GEMINI_API_KEY (Pages.env ctx)) resume chosen)).
  unfold Pages.onRequestPost, Pages.await_fetch, start.
  run; try no_call; one_call; bools;
    match goal with
    | H : destructure _ ?v = Normal _ |- _ =>
        destruct (destructure_Normal _ _ _ H) as [Hv Hf]; inversion Hf; subst;
        exists v
    end;
    do 2 eexists; unfold pages_ready; repeat split;
      try eassumption; try reflexivity;
      eapply Pages_select_prompt_valid; eassumption.
Qed.

Lemma Pages_call_sample :
  exists v chosen resume,
    pages_ready
      (Pages.mkContext (Pages.mkRequest (Normal (sample_body "critique")))
         (Pages.mkEnv (Some "secret"))) v chosen resume
    /\ valid_type (get v "type")
    /\ pages_call (Some "secret") sample_resume_text (Pages.critique_prompt, [])
       = pages_call (Some "secret") resume chosen.
Proof.
  apply (Pages_call_is_as_built (sample_fetch (plain_result sample_text_part))
           (Pages.mkContext (Pages.mkRequest (Normal (sample_body "critique")))
              (Pages.mkEnv (Some "secret")))
           (pages_call (Some "secret") sample_resume_text
              (Pages.critique_prompt, []))).
  vm_compute. left. reflexivity.
Defined.

(** The SDK handlers call the upstream API only with the credential
    configured, for a POST whose [resumeText] and [type] are not empty and
    whose prompt could be built; the call then carries the credential, the
    fixed model, generation parameters and safety settings, the resume as its
    one user part, and that prompt.  No field of the request changes the
    model, the parameters or the settings. *)
Theorem Sdk_call_is_as_built :
  (forall generateContent key req c,
      In c (calls (snd (Vercel.handler generateContent key req start))) ->
      exists prompt,
        env_truthy key = true
        /\ Vercel.method req = "POST"
        /\ validated (Vercel.body req)
        /\ prompt_of Vercel.getSystemPrompt (Vercel.body req) = Normal prompt
        /\ c = sdk_call key (Vercel.body req) prompt)
  /\ (forall generateContent ctx c,
      In c (calls (snd (Worker.onRequest generateContent ctx start))) ->
      exists v prompt,
        Worker.json (Worker.request ctx) = Normal v
        /\ env_truthy (Worker.GEMINI_API_KEY (Worker.env ctx)) = true
        /\ Worker.method (Worker.request ctx) = "POST"
        /\ validated v
        /\ prompt_of Worker.getSystemPrompt v = Normal prompt
        /\ c = sdk_call (Worker.GEMINI_API_KEY (Worker.env ctx)) v prompt).
Proof.
  split.
  - intros g key req.
    change (post (Vercel.handler g key req) start
              (fun _ w => forall c, In c (calls w) ->
                 exists prompt,
                   env_truthy key = true
                   /\ Vercel.method req = "POST"
                   /\ validated (Vercel.body req)
                   /\ prompt_of Vercel.getSystemPrompt (Vercel.body req) = Normal prompt
                   /\ c = sdk_call key (Vercel.body req) prompt)).
    unfold Vercel.handler, Sdk.generate, Sdk.on_error, Sdk.await_generate, start.
    run; try no_call; one_call; bools;
      match goal with
      | H : destructure _ ?v = Normal _ |- _ =>
          destruct (destructure_Normal _ _ _ H) as [Hv Hf]; inversion Hf; subst
      end;
      eexists; unfold validated, prompt_of; repeat split;
        try eassumption; try reflexivity;
        apply String.eqb_eq; assumption.
  - intros g ctx.
    change (post (Worker.onRequest g ctx) start
              (fun _ w => forall c, In c (calls w) ->
                 exists v prompt,
                   Worker.json (Worker.request ctx) = Normal v
                   /\ env_truthy (Worker.GEMINI_API_KEY (Worker.env ctx)) = true
                   /\ Worker.method (Worker.request ctx) = "POST"
                   /\ validated v
                   /\ prompt_of Worker.getSystemPrompt v = Normal prompt
                   /\ c = sdk_call (Worker.GEMINI_API_KEY (Worker.env ctx)) v prompt)).
    unfold Worker.onRequest, Sdk.generate, Sdk.on_error, Sdk.await_generate, start.
    run; try no_call; one_call; bools;
      match goal with
      | H : destructure _ ?v = Normal _ |- _ =>
          destruct (destructure_Normal _ _ _ H) as [Hv Hf]; inversion Hf; subst;
          exists v
      end;
      eexists; unfold validated, prompt_of; repeat split;
        try eassumption; try reflexivity;
        apply String.eqb_eq; assumption.
Qed.

Lemma Sdk_call_sample :
  exists prompt,
    env_truthy (Some "secret") = true
    /\ "POST" = "POST"
    /\ validated (sample_body "jobs")
    /\ prompt_of Vercel.getSystemPrompt (sample_body "jobs") = Normal prompt
    /\ sample_jobs_call = sdk_call (Some "secret") (sample_body "jobs") prompt.
Proof.
  apply (proj1 Sdk_call_is_as_built
           (sample_generate (sample_result sample_text_part)) (Some "secret")
           (Vercel.mkRequest "POST" (sample_body "jobs")) sample_jobs_call).
  vm_compute. left. reflexivity.
Defined.

(** ** Upstream failures *)

(** The message of the error thrown for a reply that is not [ok]. *)
Lemma new_Error_upstream_message (errorBody : JsVal) (m : string) :
  (upstream_message errorBody = JStr m /\ m <> EmptyString)
  \/ (truthy (upstream_message errorBody) = false
      /\ m = "Failed to call Gemini API.") ->
  new_Error (js_or (upstream_message errorBody) (JStr "Failed to call Gemini API."))
  = Normal (pages_error m).
Proof.
  unfold js_or. intros [[E Hm] | [E ->]]; rewrite E.
  - apply truthy_string in Hm. rewrite Hm. reflexivity.
  - reflexivity.
Qed.

(** The Pages handler surfaces an upstream failure as a 500, after its one
    call and with the failure logged.  For a request taken as far as the
    upstream call: a rejected [fetch] and a reply whose body does not parse
    carry the error's own message; a reply that is not [ok] and whose body
    parses to a value other than [null] is logged and carries the message of
    the upstream error when that is a string and not empty, and "Failed to
    call Gemini API." when it is missing or falsy. *)
Theorem Pages_upstream_failure_is_surfaced fetch ctx v chosen resume w :
  pages_ready ctx v chosen resume ->
  let call := pages_call (Pages.GEMINI_API_KEY (Pages.env ctx)) resume chosen in
  (forall e,
      fetch call = Pages.FetchRejected e ->
      Pages.onRequestPost fetch ctx w
      = (Normal (mkResponse 500 (error_body (message e))),
         mkWorld (calls w ++ [call]) (console w ++ [caught_log cloudflare_label e])))
  /\ (forall ok e,
      fetch call = Pages.FetchResponse ok (Throw e) ->
      Pages.onRequestPost fetch ctx w
      = (Normal (mkResponse 500 (error_body (message e))),
         mkWorld (calls w ++ [call]) (console w ++ [caught_log cloudflare_label e])))
  /\ (forall errorBody m,
      fetch call = Pages.FetchResponse false (Normal errorBody) ->
      nullish errorBody = false ->
      (upstream_message errorBody = JStr m /\ m <> EmptyString)
      \/ (truthy (upstream_message errorBody) = false
          /\ m = "Failed to call Gemini API.") ->
      Pages.onRequestPost fetch ctx w
      = (Normal (mkResponse 500 (error_body m)),
         mkWorld (calls w ++ [call])
           ((console w ++ [("Gemini API Error:", LogValue errorBody)])
            ++ [caught_log cloudflare_label (pages_error m)]))).
Proof.
  intros Hready call. subst call. destruct chosen as [prompt tools].
  unfold pages_call, pages_user_content. cbn [fst snd].
  split; [| split].
  - intros e Hfetch. pages_to_fetch Hready. rewrite Hfetch. reflexivity.
  - intros ok e Hfetch. pages_to_fetch Hready. rewrite Hfetch.
    destruct ok; reflexivity.
  - intros errorBody m Hfetch Hbody Hm.
    pose proof (new_Error_upstream_message errorBody m Hm) as Hnew.
    unfold upstream_message in Hnew.
    pages_to_fetch Hready. rewrite Hfetch. cbv beta iota. cbn [negb].
    unfold member. rewrite Hbody. rewrite Hnew. reflexivity.
Qed.

Lemma Pages_upstream_failure_sample :
  Pages.onRequestPost
    (fun _ => Pages.FetchResponse false
                (Normal (JObj [("error", JObj [("message", JStr "quota exceeded")])])))
    (Pages.mkContext (Pages.mkRequest (Normal (sample_body "critique")))
       (Pages.mkEnv (Some "secret"))) start
  = (Normal (mkResponse 500 (error_body "quota exceeded")),
     mkWorld
       [pages_call (Some "secret") sample_resume_text (Pages.critique_prompt, [])]
       [("Gemini API Error:",
         LogValue (JObj [("error", JObj [("message", JStr "quota exceeded")])]));
        caught_log cloudflare_label (pages_error "quota exceeded")]).
Proof.
  refine (proj2 (proj2
            (Pages_upstream_failure_is_surfaced
               (fun _ => Pages.FetchResponse false
                  (Normal (JObj [("error", JObj [("message", JStr "quota exceeded")])])))
               (Pages.mkContext (Pages.mkRequest (Normal (sample_body "critique")))
                  (Pages.mkEnv (Some "secret")))
               (sample_body "critique") (Pages.critique_prompt, [])
               sample_resume_text start _))
            (JObj [("error", JObj [("message", JStr "quota exceeded")])])
            "quota exceeded" eq_refl eq_refl _).
  - repeat split.
  - left. split; [reflexivity | discriminate].
Defined.

(** ** From the upstream reply to the answer, in the SDK handlers *)

Ltac vercel_to_generate Hkey Hm Hval :=
  let Hv := fresh in let Hr := fresh in let Ht := fresh in
  destruct Hval as [Hv [Hr Ht]];
  unfold Vercel.handler;
  rewrite (negb_env_truthy_false _ Hkey), (is_POST _ Hm);
  unfold bind at 1; unfold lift at 1;
  rewrite (destructure_object _ _ Hv); cbv beta iota;
  rewrite Hr, Ht; cbv beta iota;
  unfold try_catch, Sdk.generate, Sdk.on_error, Sdk.await_generate, bind, lift,
    await_call, console_error, throw, ret.

Ltac worker_to_generate Hkey Hm Hjson Hval :=
  let Hv := fresh in let Hr := fresh in let Ht := fresh in
  destruct Hval as [Hv [Hr Ht]];
  unfold Worker.onRequest;
  rewrite (negb_env_truthy_false _ Hkey), (is_POST _ Hm); cbv beta iota zeta;
  unfold try_catch, Sdk.generate, Sdk.on_error, Sdk.await_generate, bind, lift,
    await_call, console_error, throw, ret;
  rewrite Hjson, (destructure_object _ _ Hv); cbv beta iota;
  rewrite Hr, Ht; cbv beta iota.

(** In the Vercel handler, for a request that passes the checks and whose
    prompt was built, the reply of the one upstream call decides the answer:
    a rejection is caught, logged and answered 500 with its message after
    "Error generating content: "; a result is answered with what the
    extraction gives, a thrown extraction being caught the same way. *)
Theorem Vercel_reply_decides_answer generateContent key req prompt w :
  env_truthy key = true ->
  Vercel.method req = "POST" ->
  validated (Vercel.body req) ->
  prompt_of Vercel.getSystemPrompt (Vercel.body req) = Normal prompt ->
  let call := sdk_call key (Vercel.body req) prompt in
  (forall e,
      generateContent call = Sdk.GenerateRejected e ->
      Vercel.handler generateContent key req w
      = (Normal (caught_answer e),
         mkWorld (calls w ++ [call]) (console w ++ [caught_log vercel_label e])))
  /\ (forall response r,
      generateContent call = Sdk.GenerateResult response ->
      Sdk.extract response = Normal r ->
      Vercel.handler generateContent key req w
      = (Normal r, mkWorld (calls w ++ [call]) (console w)))
  /\ (forall response e,
      generateContent call = Sdk.GenerateResult response ->
      Sdk.extract response = Throw e ->
      Vercel.handler generateContent key req w
      = (Normal (caught_answer e),
         mkWorld (calls w ++ [call]) (console w ++ [caught_log vercel_label e]))).
Proof.
  intros Hkey Hm Hval Hp call. subst call. unfold prompt_of in Hp. unfold sdk_call.
  split; [| split].
  - intros e Hg. vercel_to_generate Hkey Hm Hval. rewrite Hp. cbv beta iota.
    rewrite Hg. reflexivity.
  - intros response r Hg Hx. vercel_to_generate Hkey Hm Hval. rewrite Hp.
    cbv beta iota. rewrite Hg. cbv beta iota. rewrite Hx. reflexivity.
  - intros response e Hg Hx. vercel_to_generate Hkey Hm Hval. rewrite Hp.
    cbv beta iota. rewrite Hg. cbv beta iota. rewrite Hx. reflexivity.
Qed.

Lemma Vercel_reply_sample :
  Vercel.handler (fun _ => Sdk.GenerateRejected (mkThrown Error "fetch failed"))
    (Some "secret") (Vercel.mkRequest "POST" (sample_body "jobs")) start
  = (Normal (caught_answer (mkThrown Error "fetch failed")),
     mkWorld [sample_jobs_call]
       [caught_log vercel_label (mkThrown Error "fetch failed")]).
Proof.
  refine (proj1 (Vercel_reply_decides_answer
                   (fun _ => Sdk.GenerateRejected (mkThrown Error "fetch failed"))
                   (Some "secret") (Vercel.mkRequest "POST" (sample_body "jobs"))
                   (Sdk.jobs_prompt EmptyString) start
                   eq_refl eq_refl _ eq_refl)
            (mkThrown Error "fetch failed") eq_refl).
  repeat split.
Defined.

(** The same in the Worker handler. *)
Theorem Worker_reply_decides_answer generateContent ctx v prompt w :
  env_truthy (Worker.GEMINI_API_KEY (Worker.env ctx)) = true ->
  Worker.method (Worker.request ctx) = "POST" ->
  Worker.json (Worker.request ctx) = Normal v ->
  validated v ->
  prompt_of Worker.getSystemPrompt v = Normal prompt ->
  let call := sdk_call (Worker.GEMINI_API_KEY (Worker.env ctx)) v prompt in
  (forall e,
      generateContent call = Sdk.GenerateRejected e ->
      Worker.onRequest generateContent ctx w
      = (Normal (caught_answer e),
         mkWorld (calls w ++ [call]) (console w ++ [caught_log cloudflare_label e])))
  /\ (forall response r,
      generateContent call = Sdk.GenerateResult response ->
      Sdk.extract response = Normal r ->
      Worker.onRequest generateContent ctx w
      = (Normal r, mkWorld (calls w ++ [call]) (console w)))
  /\ (forall response e,
      generateContent call = Sdk.GenerateResult response ->
      Sdk.extract response = Throw e ->
      Worker.onRequest generateContent ctx w
      = (Normal (caught_answer e),
         mkWorld (calls w ++ [call]) (console w ++ [caught_log cloudflare_label e]))).
Proof.
  intros Hkey Hm Hjson Hval Hp call. subst call. unfold prompt_of in Hp.
  unfold sdk_call.
  split; [| split].
  - intros e Hg. worker_to_generate Hkey Hm Hjson Hval. rewrite Hp. cbv beta iota.
    rewrite Hg. reflexivity.
  - intros response r Hg Hx. worker_to_generate Hkey Hm Hjson Hval. rewrite Hp.
    cbv beta iota. rewrite Hg. cbv beta iota. rewrite Hx. reflexivity.
  - intros response e Hg Hx. worker_to_generate Hkey Hm Hjson Hval. rewrite Hp.
    cbv beta iota. rewrite Hg. cbv beta iota. rewrite Hx. reflexivity.
Qed.

Lemma Worker_reply_sample :
  Worker.onRequest (sample_generate (plain_result sample_text_part))
    (Worker.mkContext (Worker.mkRequest "POST" (Normal (sample_body "critique")))
       (Worker.mkEnv (Some "secret"))) start
  = (Normal (mkResponse 200 (success_body (JStr "## Resume Critique") [])),
     mkWorld [sdk_call (Some "secret") (sample_body "critique") Worker.critique_prompt]
       []).
Proof.
  refine (proj1 (proj2 (Worker_reply_decides_answer
                   (sample_generate (plain_result sample_text_part))
                   (Worker.mkContext
                      (Worker.mkRequest "POST" (Normal (sample_body "critique")))
                      (Worker.mkEnv (Some "secret")))
                   (sample_body "critique") Worker.critique_prompt start
                   eq_refl eq_refl eq_refl _ eq_refl))
            (plain_result sample_text_part) _ eq_refl eq_refl).
  repeat split.
Defined.

(** A prompt that cannot be built fails the request before any upstream call:
    the error is caught, logged and answered 500. *)
Theorem Sdk_prompt_failure_stops_the_request :
  (forall generateContent key req e w,
      env_truthy key = true ->
      Vercel.method req = "POST" ->
      validated (Vercel.body req) ->
      prompt_of Vercel.getSystemPrompt (Vercel.body req) = Throw e ->
      Vercel.handler generateContent key req w
      = (Normal (caught_answer e),
         mkWorld (calls w) (console w ++ [caught_log vercel_label e])))
  /\ (forall generateContent ctx v e w,
      env_truthy (Worker.GEMINI_API_KEY (Worker.env ctx)) = true ->
      Worker.method (Worker.request ctx) = "POST" ->
      Worker.json (Worker.request ctx) = Normal v ->
      validated v ->
      prompt_of Worker.getSystemPrompt v = Throw e ->
      Worker.onRequest generateContent ctx w
      = (Normal (caught_answer e),
         mkWorld (calls w) (console w ++ [caught_log cloudflare_label e]))).
Proof.
  split.
  - intros g key req e w Hkey Hm Hval Hp. unfold prompt_of in Hp.
    vercel_to_generate Hkey Hm Hval. rewrite Hp. reflexivity.
  - intros g ctx v e w Hkey Hm Hjson Hval Hp. unfold prompt_of in Hp.
    worker_to_generate Hkey Hm Hjson Hval. rewrite Hp. reflexivity.
Qed.

Lemma Sdk_prompt_failure_sample :
  Vercel.handler (sample_generate (plain_result sample_text_part)) (Some "secret")
    (Vercel.mkRequest "POST"
       (JObj [("resumeText", sample_resume); ("type", JStr "critique");
              ("datePosted", JNum false "7")])) start
  = (Normal (caught_answer (mkThrown TypeError "datePosted.replace is not a function")),
     mkWorld []
       [caught_log vercel_label
          (mkThrown TypeError "datePosted.replace is not a function")]).
Proof.
  refine (proj1 Sdk_prompt_failure_stops_the_request _ (Some "secret")
            (Vercel.mkRequest "POST"
               (JObj [("resumeText", sample_resume); ("type", JStr "critique");
                      ("datePosted", JNum false "7")]))
            (mkThrown TypeError "datePosted.replace is not a function") start
            eq_refl eq_refl _ eq_refl).
  repeat split.
Defined.

(** Induction on a value, with the elements of an array as smaller values. *)
Lemma JsVal_array_ind (P : JsVal -> Prop) :
  (forall v, (forall items, v = JArr items -> Forall P items) -> P v) ->
  forall v, P v.
Proof.
  intros H.
  refine (fix IH (v : JsVal) : P v := _).
  apply H. destruct v as [ | | | | | items | ]; intros items' Heq;
    try discriminate Heq.
  injection Heq as <-. revert items.
  refine (fix go (xs : list JsVal) : Forall P xs :=
            match xs with
            | [] => Forall_nil _
            | x :: r => Forall_cons x (IH x) (go r)
            end).
Qed.

(** What the conversion to a string throws, when it throws. *)
Lemma to_string_Throw (v : JsVal) (e : Thrown) :
  to_string v = Throw e -> e = unprintable.
Proof.
  revert e. induction v as [v IH] using JsVal_array_ind. intros e.
  destruct v as [ | | b | zero text | s | items | props ]; simpl.
  - discriminate.
  - discriminate.
  - destruct b; discriminate.
  - discriminate.
  - discriminate.
  - specialize (IH items eq_refl).
    match goal with
    | |- and_then (?each items) _ = _ -> _ =>
        assert (Heach : forall e', each items = Throw e' -> e' = unprintable)
    end.
    { induction IH as [| x rest Hx _ IHrest]; intros e' H.
      - discriminate.
      - match type of H with
        | and_then ?head _ = _ =>
            assert (Hhead : forall e'', head = Throw e'' -> e'' = unprintable)
        end.
        { destruct x; try discriminate; apply Hx. }
        match type of H with
        | and_then ?head _ = _ => destruct head as [t | e0]
        end.
        + simpl in H.
          match type of H with
          | and_then ?tail _ = _ => destruct tail as [ts | e1] eqn:Htail
          end; [discriminate |].
          simpl in H. injection H as <-. apply IHrest. reflexivity.
        + simpl in H. injection H as <-. apply Hhead. reflexivity. }
    match goal with
    | |- and_then ?run _ = _ -> _ => destruct run as [ts | e0]
    end; [discriminate |].
    simpl. intros [= <-]. apply Heach. reflexivity.
  - destruct (own_property "toString" props); [| discriminate].
    intros [= <-]. reflexivity.
Qed.

Lemma filter_string_Throw (location datePosted : JsVal) (e : Thrown) :
  Sdk.filter_string location datePosted = Throw e
  <-> (to_string location = Throw e)
      \/ ((exists text, to_string location = Normal text)
          /\ (truthy datePosted = true /\ forall s, datePosted <> JStr s)
          /\ e = mkThrown TypeError "datePosted.replace is not a function").
Proof.
  assert (Hdate : forall fs,
            (fs' <~ (if truthy datePosted && negb (strict_eq_str datePosted "any")
                     then posted <~ Sdk.replace_underscore datePosted ;;
                          Normal (fs ++ " (Posted: " ++ posted ++ ")")
                     else Normal fs) ;;
             if negb (fs' =? EmptyString)
             then Normal (nl ++ nl ++ "**CRITICAL: You MUST adhere to these filters: "
                          ++ fs' ++ "**")
             else Normal fs') = Throw e
            <-> (truthy datePosted = true /\ forall s, datePosted <> JStr s)
                /\ e = mkThrown TypeError "datePosted.replace is not a function").
  { intros fs.
    destruct (truthy datePosted && negb (strict_eq_str datePosted "any")) eqn:E.
    - apply andb_true_iff in E. destruct E as [Ht _].
      destruct datePosted as [ | | b | zero text | s | items | props ];
        try (simpl; split;
             [ intros [= <-]; repeat split; (assumption || discriminate)
             | intros [_ ->]; reflexivity ]).
      simpl and_then.
      match goal with
      | |- (if ?b then _ else _) = _ <-> _ => destruct b
      end; (split; [discriminate | intros [[_ Hs] _]; exfalso; exact (Hs s eq_refl)]).
    - simpl and_then.
      match goal with
      | |- (if ?b then _ else _) = _ <-> _ => destruct b
      end; (split; [discriminate |]); intros [[Ht Hs] _]; rewrite Ht in E; simpl in E;
        apply negb_false_iff, strict_eq_str_true in E; exfalso; exact (Hs _ E). }
  unfold Sdk.filter_string.
  destruct (truthy location) eqn:Hl.
  - destruct (to_string location) as [text | e0] eqn:Htext.
    + cbn [and_then]. rewrite Hdate. split.
      * intros H. right. split; [exists text; reflexivity | exact H].
      * intros [H | [_ H]]; [discriminate | exact H].
    + simpl. split.
      * intros [= <-]. left. reflexivity.
      * intros [[= <-] | [[text H] _]]; [reflexivity | discriminate].
  - assert (Htext : exists text, to_string location = Normal text).
    { destruct location as [ | | [ | ] | zero text | s | items | props ];
        try discriminate Hl; eexists; reflexivity. }
    cbn [and_then]. rewrite Hdate. split.
    + intros H. right. split; [exact Htext | exact H].
    + intros [H | [_ H]]; [| exact H].
      destruct Htext as [text Htext]. congruence.
Qed.

Lemma getSystemPrompt_with_Throw (critique : string)
  (type location datePosted : JsVal) (e : Thrown) :
  Sdk.getSystemPrompt_with critique type location datePosted = Throw e
  <-> Sdk.filter_string location datePosted = Throw e.
Proof.
  unfold Sdk.getSystemPrompt_with.
  destruct (Sdk.filter_string location datePosted) as [fs | e']; simpl.
  - split; [| discriminate].
    destruct (strict_eq_str type "jobs"); [discriminate |].
    destruct (strict_eq_str type "critique"); [discriminate |].
    destruct (strict_eq_str type "contacts"); discriminate.
  - tauto.
Qed.

Lemma getSystemPrompt_with_fails (critique : string)
  (type location datePosted : JsVal) (e : Thrown) :
  Sdk.getSystemPrompt_with critique type location datePosted = Throw e
  <-> (to_string location = Throw e /\ e = unprintable)
      \/ ((exists text, to_string location = Normal text)
          /\ (truthy datePosted = true /\ forall s, datePosted <> JStr s)
          /\ e = mkThrown TypeError "datePosted.replace is not a function").
Proof.
  rewrite getSystemPrompt_with_Throw, filter_string_Throw. split.
  - intros [H | H]; [left | right; exact H].
    split; [exact H | exact (to_string_Throw _ _ H)].
  - intros [[H _] | H]; [left; exact H | right; exact H].
Qed.

(** [getSystemPrompt] fails exactly in two cases, whatever the type, the
    critique type included.  The location is formatted first: when its
    conversion to a string throws, that TypeError, "Cannot convert object to
    primitive value", is what [getSystemPrompt] throws.  Otherwise it fails
    when [datePosted] is neither empty nor a string, with the TypeError of
    the missing [replace]. *)
Theorem getSystemPrompt_fails_iff (type location datePosted : JsVal) (e : Thrown) :
  (Vercel.getSystemPrompt type location datePosted = Throw e
   <-> (to_string location = Throw e /\ e = unprintable)
       \/ ((exists text, to_string location = Normal text)
           /\ (truthy datePosted = true /\ forall s, datePosted <> JStr s)
           /\ e = mkThrown TypeError "datePosted.replace is not a function"))
  /\ (Worker.getSystemPrompt type location datePosted = Throw e
      <-> (to_string location = Throw e /\ e = unprintable)
          \/ ((exists text, to_string location = Normal text)
              /\ (truthy datePosted = true /\ forall s, datePosted <> JStr s)
              /\ e = mkThrown TypeError "datePosted.replace is not a function")).
Proof.
  unfold Vercel.getSystemPrompt, Worker.getSystemPrompt.
  split; apply getSystemPrompt_with_fails.
Qed.

(** ** Reading the upstream result: guarded in one file, unguarded in two *)

(** The SDK handlers read [candidates[0].content.parts[0]] link by link: the
    extraction succeeds exactly when every link is there and the sources can
    be collected, and the answer is then the text of that first part, as it
    is, with the sources.  The Pages handler guards every link: its
    extraction succeeds whenever the result is not [null] and the sources can
    be collected, with the text of the first part or, for want of one, the
    placeholder. *)
Theorem extraction_succeeds_iff (result : JsVal) (r : Response) :
  (Sdk.extract result = Normal r
   <-> sdk_links_defined result
       /\ exists sources,
            collect_sources (get (sdk_candidate result) "groundingMetadata")
            = Normal sources
            /\ r = mkResponse 200
                     (success_body (get (sdk_part result) "text") sources))
  /\ (Pages.extract result = Normal r
      <-> nullish result = false
          /\ exists sources,
               collect_sources (first_metadata result) = Normal sources
               /\ r = mkResponse 200
                        (success_body (js_or (first_text result) placeholder) sources)).
Proof.
  split.
  - unfold Sdk.extract, sdk_links_defined, sdk_part, sdk_candidate, member, member0.
    repeat match goal with
           | |- context [if nullish ?x then _ else _] =>
               destruct (nullish x) eqn:?; simpl and_then;
               [ split; [discriminate | intros [Hl _]; decompose [and] Hl; congruence] | ]
           end.
    destruct (collect_sources _) as [sources | e]; simpl and_then.
    + split.
      * intros [= <-]. split; [repeat split; assumption |].
        exists sources. split; reflexivity.
      * intros [_ [s [[= <-] ->]]]. reflexivity.
    + split; [discriminate | intros [_ [s [Hs _]]]; discriminate].
  - unfold Pages.extract, member, first_text, first_metadata.
    destruct (nullish result) eqn:Hr; simpl and_then.
    + split; [discriminate | intros [H _]; discriminate].
    + destruct (collect_sources _) as [sources | e]; simpl and_then.
      * split.
        -- intros [= <-]. split; [reflexivity |]. exists sources. split; reflexivity.
        -- intros [_ [s [[= <-] ->]]]. reflexivity.
      * split; [discriminate | intros [_ [s [Hs _]]]; discriminate].
Qed.

(** ** A body that cannot be read *)

(** A body that does not parse, or that parses to [null], is answered 500 by
    the Pages handler, whatever the credential, and by the Worker handler once
    the credential and the method have passed; the error is logged and no
    upstream call is issued. *)
Theorem unreadable_body_is_a_500 :
  (forall fetch ctx e w,
      Pages.json (Pages.request ctx) = Throw e ->
      Pages.onRequestPost fetch ctx w
      = (Normal (mkResponse 500 (error_body (message e))),
         mkWorld (calls w) (console w ++ [caught_log cloudflare_label e])))
  /\ (forall fetch ctx v w,
      Pages.json (Pages.request ctx) = Normal v ->
      nullish v = true ->
      exists e,
        name e = TypeError
        /\ Pages.onRequestPost fetch ctx w
           = (Normal (mkResponse 500 (error_body (message e))),
              mkWorld (calls w) (console w ++ [caught_log cloudflare_label e])))
  /\ (forall generateContent ctx e w,
      env_truthy (Worker.GEMINI_API_KEY (Worker.env ctx)) = true ->
      Worker.method (Worker.request ctx) = "POST" ->
      Worker.json (Worker.request ctx) = Throw e ->
      Worker.onRequest generateContent ctx w
      = (Normal (caught_answer e),
         mkWorld (calls w) (console w ++ [caught_log cloudflare_label e])))
  /\ (forall generateContent ctx v w,
      env_truthy (Worker.GEMINI_API_KEY (Worker.env ctx)) = true ->
      Worker.method (Worker.request ctx) = "POST" ->
      Worker.json (Worker.request ctx) = Normal v ->
      nullish v = true ->
      exists e,
        name e = TypeError
        /\ Worker.onRequest generateContent ctx w
           = (Normal (caught_answer e),
              mkWorld (calls w) (console w ++ [caught_log cloudflare_label e]))).
Proof.
  split; [| split; [| split]].
  - intros fetch ctx e w Hjson.
    unfold Pages.onRequestPost, try_catch, bind, lift. rewrite Hjson. reflexivity.
  - intros fetch ctx v w Hjson Hv.
    unfold Pages.onRequestPost, try_catch, bind, lift, destructure.
    rewrite Hjson, Hv. eexists. split; [| reflexivity]. reflexivity.
  - intros g ctx e w Hkey Hm Hjson. unfold Worker.onRequest.
    rewrite (negb_env_truthy_false _ Hkey), (is_POST _ Hm).
    unfold try_catch, bind, lift. rewrite Hjson. reflexivity.
  - intros g ctx v w Hkey Hm Hjson Hv. unfold Worker.onRequest.
    rewrite (negb_env_truthy_false _ Hkey), (is_POST _ Hm).
    unfold try_catch, bind, lift, destructure. rewrite Hjson, Hv.
    eexists. split; [| reflexivity]. reflexivity.
Qed.

Lemma unreadable_body_sample :
  Worker.onRequest (sample_generate (plain_result sample_text_part))
    (Worker.mkContext
       (Worker.mkRequest "POST"
          (Throw (mkThrown SyntaxError "Unexpected end of JSON input")))
       (Worker.mkEnv (Some "secret"))) start
  = (Normal (caught_answer (mkThrown SyntaxError "Unexpected end of JSON input")),
     mkWorld []
       [caught_log cloudflare_label
          (mkThrown SyntaxError "Unexpected end of JSON input")]).
Proof.
  exact (proj1 (proj2 (proj2 unreadable_body_is_a_500)) _
           (Worker.mkContext
              (Worker.mkRequest "POST"
                 (Throw (mkThrown SyntaxError "Unexpected end of JSON input")))
              (Worker.mkEnv (Some "secret")))
           (mkThrown SyntaxError "Unexpected end of JSON input") start
           eq_refl eq_refl eq_refl).
Defined.

(** ** What is logged *)

(** The Pages handler logs every failure and nothing else: a 200 leaves the
    console empty, and a 500 carries the message of the error logged last.
    The SDK handlers log only what their [catch] block catches: a missing
    credential, a wrong method and a missing field are answered without a
    log entry. *)
Theorem failures_and_the_console :
  (forall fetch ctx,
      exists r,
        fst (Pages.onRequestPost fetch ctx start) = Normal r
        /\ ((status r = 200%Z
             /\ console (snd (Pages.onRequestPost fetch ctx start)) = [])
            \/ exists e older,
                 r = mkResponse 500 (error_body (message e))
                 /\ console (snd (Pages.onRequestPost fetch ctx start))
                    = (older ++ [caught_log cloudflare_label e])%list))
  /\ (forall generateContent key req,
      console (snd (Vercel.handler generateContent key req start)) = []
      \/ exists e,
           Vercel.handler generateContent key req start
           = (Normal (caught_answer e),
              mkWorld (calls (snd (Vercel.handler generateContent key req start)))
                [caught_log vercel_label e]))
  /\ (forall generateContent ctx,
      console (snd (Worker.onRequest generateContent ctx start)) = []
      \/ exists e,
           Worker.onRequest generateContent ctx start
           = (Normal (caught_answer e),
              mkWorld (calls (snd (Worker.onRequest generateContent ctx start)))
                [caught_log cloudflare_label e])).
Proof.
  split; [| split].
  - intros fetch ctx.
    change (post (Pages.onRequestPost fetch ctx) start
              (fun c w =>
                 exists r, c = Normal r
                   /\ ((status r = 200%Z /\ console w = [])
                       \/ exists e older,
                            r = mkResponse 500 (error_body (message e))
                            /\ console w = (older ++ [caught_log cloudflare_label e])%list))).
    unfold Pages.onRequestPost, Pages.await_fetch, start.
    run; eexists; (split; [reflexivity |]);
      try (right; do 2 eexists; split; reflexivity).
    left. split; [| reflexivity].
    match goal with
    | H : Pages.extract _ = Normal _ |- _ =>
        apply Pages_extract_full in H; destruct H as [H _]; exact H
    end.
  - intros g key req.
    assert (H : post (Vercel.handler g key req) start
                  (fun c w => console w = []
                              \/ exists e, (c, w)
                                 = (Normal (caught_answer e),
                                    mkWorld (calls w) [caught_log vercel_label e]))).
    { unfold Vercel.handler, Sdk.generate, Sdk.on_error, Sdk.await_generate, start.
      run; try (left; reflexivity); right; eexists; reflexivity. }
    unfold post in H. destruct H as [H | [e H]]; [left; exact H | right].
    exists e. rewrite <- H. apply surjective_pairing.
  - intros g ctx.
    assert (H : post (Worker.onRequest g ctx) start
                  (fun c w => console w = []
                              \/ exists e, (c, w)
                                 = (Normal (caught_answer e),
                                    mkWorld (calls w) [caught_log cloudflare_label e]))).
    { unfold Worker.onRequest, Sdk.generate, Sdk.on_error, Sdk.await_generate, start.
      run; try (left; reflexivity); right; eexists; reflexivity. }
    unfold post in H. destruct H as [H | [e H]]; [left; exact H | right].
    exists e. rewrite <- H. apply surjective_pairing.
Qed.

(** ** The date filter *)

Lemma replace_first_unfold (pat rep s : string) :
  replace_first pat rep s
  = if String.prefix pat s then rep ++ drop (String.length pat) s
    else match s with
         | EmptyString => EmptyString
         | String c s' => String c (replace_first pat rep s')
         end.
Proof. destruct s; reflexivity. Qed.

Lemma prefix_char (x c : ascii) (s : string) :
  String.prefix (String x EmptyString) (String c s)
  = if ascii_dec x c then true else false.
Proof. cbn [String.prefix]. destruct (ascii_dec x c); destruct s; reflexivity. Qed.

Lemma contains_char_cons (x c : ascii) (s : string) :
  contains (String x EmptyString) (String c s) = false ->
  x <> c /\ contains (String x EmptyString) s = false.
Proof.
  rewrite contains_unfold, prefix_char. intros H.
  apply orb_false_iff in H. destruct H as [Hc Hrest].
  split; [| exact Hrest]. destruct (ascii_dec x c); [discriminate | assumption].
Qed.

Lemma replace_first_underscore (pre rest : string) :
  contains "_" pre = false ->
  replace_first "_" " " (pre ++ "_" ++ rest) = pre ++ " " ++ rest.
Proof.
  induction pre as [| c pre IH]; intros H.
  - change (EmptyString ++ "_" ++ rest) with (String "_" rest).
    rewrite replace_first_unfold, prefix_char.
    destruct (ascii_dec "_" "_") as [_ | N]; [reflexivity | contradiction].
  - apply contains_char_cons in H. destruct H as [Hc Hrest].
    change (String c pre ++ "_" ++ rest) with (String c (pre ++ "_" ++ rest)).
    rewrite replace_first_unfold, prefix_char.
    destruct (ascii_dec "_" c) as [E | _]; [contradiction |].
    rewrite (IH Hrest). reflexivity.
Qed.

Lemma replace_first_no_underscore (s : string) :
  contains "_" s = false -> replace_first "_" " " s = s.
Proof.
  induction s as [| c s IH]; intros H.
  - reflexivity.
  - apply contains_char_cons in H. destruct H as [Hc Hrest].
    rewrite replace_first_unfold, prefix_char.
    destruct (ascii_dec "_" c) as [E | _]; [contradiction |].
    rewrite (IH Hrest). reflexivity.
Qed.

(** A date filter reaches the prompt with its first underscore, and only the
    first, turned into a space (so "past_2_weeks" reads "past 2_weeks"); a
    date without underscore is written as it is. *)
Theorem date_filter_loses_first_underscore (location : JsVal) (pre rest : string) :
  truthy location = false ->
  contains "_" pre = false ->
  Sdk.filter_string location (JStr (pre ++ "_" ++ rest))
  = Normal (nl ++ nl ++ "**CRITICAL: " ++ filter_clause ++ " "
            ++ " (Posted: " ++ (pre ++ " " ++ rest) ++ ")" ++ "**")
  /\ (forall s, contains "_" s = false -> s <> EmptyString -> s <> "any" ->
        Sdk.filter_string location (JStr s)
        = Normal (nl ++ nl ++ "**CRITICAL: " ++ filter_clause ++ " "
                  ++ " (Posted: " ++ s ++ ")" ++ "**")).
Proof.
  intros Hl Hpre. split.
  - unfold Sdk.filter_string, Sdk.replace_underscore. rewrite Hl.
    assert (Hne : truthy (JStr (pre ++ "_" ++ rest))
                  && negb (strict_eq_str (JStr (pre ++ "_" ++ rest)) "any") = true).
    { apply andb_true_iff. split.
      - apply truthy_string. destruct pre; discriminate.
      - apply negb_true_iff. apply strict_eq_str_false. intros [= E].
        assert (C : contains "_" "any" = true).
        { rewrite <- E. apply contains_iff. exists pre, rest. reflexivity. }
        discriminate C. }
    rewrite Hne. rewrite (replace_first_underscore _ _ Hpre).
    simpl. rewrite ?append_assoc. reflexivity.
  - intros s Hs Hne Hany.
    unfold Sdk.filter_string, Sdk.replace_underscore. rewrite Hl.
    assert (Ht : truthy (JStr s) && negb (strict_eq_str (JStr s) "any") = true).
    { apply andb_true_iff. split.
      - apply truthy_string. exact Hne.
      - apply negb_true_iff. apply strict_eq_str_false. congruence. }
    rewrite Ht. rewrite (replace_first_no_underscore _ Hs).
    simpl. rewrite ?append_assoc. reflexivity.
Qed.

Lemma date_filter_sample :
  Sdk.filter_string JUndefined (JStr "past_2_weeks")
  = Normal (nl ++ nl ++ "**CRITICAL: " ++ filter_clause ++ " "
            ++ " (Posted: " ++ "past 2_weeks" ++ ")" ++ "**").
Proof.
  exact (proj1 (date_filter_loses_first_underscore JUndefined "past" "2_weeks"
                  eq_refl eq_refl)).
Defined.

(** ** From the upstream reply to the answer, in the Pages handler *)

(** In the Pages handler, for a request taken as far as the upstream call,
    an [ok] reply whose body parses decides the answer: what the extraction
    gives, after the one call and without a log entry, a thrown extraction
    being caught, logged and answered 500. *)
Theorem Pages_reply_decides_answer fetch ctx v chosen resume result w :
  pages_ready ctx v chosen resume ->
  let call := pages_call (Pages.GEMINI_API_KEY (Pages.env ctx)) resume chosen in
  fetch call = Pages.FetchResponse true (Normal result) ->
  (forall r,
      Pages.extract result = Normal r ->
      Pages.onRequestPost fetch ctx w
      = (Normal r, mkWorld (calls w ++ [call]) (console w)))
  /\ (forall e,
      Pages.extract result = Throw e ->
      Pages.onRequestPost fetch ctx w
      = (Normal (mkResponse 500 (error_body (message e))),
         mkWorld (calls w ++ [call]) (console w ++ [caught_log cloudflare_label e]))).
Proof.
  intros Hready call. subst call. destruct chosen as [prompt tools].
  unfold pages_call, pages_user_content. cbn [fst snd]. intros Hfetch.
  split.
  - intros r Hx. pages_to_fetch Hready. rewrite Hfetch.
    cbv beta iota. cbn [negb]. rewrite Hx. reflexivity.
  - intros e Hx. pages_to_fetch Hready. rewrite Hfetch.
    cbv beta iota. cbn [negb]. rewrite Hx. reflexivity.
Qed.

Lemma Pages_reply_sample :
  Pages.onRequestPost (sample_fetch (sample_result sample_text_part))
    (Pages.mkContext (Pages.mkRequest (Normal (sample_body "critique")))
       (Pages.mkEnv (Some "secret"))) start
  = (Normal (mkResponse 200
               (success_body (JStr "## Resume Critique")
                  [JObj [("uri", JStr "https://example.com/a"); ("title", JStr "A")]])),
     mkWorld
       [pages_call (Some "secret") sample_resume_text (Pages.critique_prompt, [])]
       []).
Proof.
  refine (proj1 (Pages_reply_decides_answer
                   (sample_fetch (sample_result sample_text_part))
                   (Pages.mkContext (Pages.mkRequest (Normal (sample_body "critique")))
                      (Pages.mkEnv (Some "secret")))
                   (sample_body "critique") (Pages.critique_prompt, [])
                   sample_resume_text (sample_result sample_text_part) start
                   _ eq_refl)
            _ eq_refl).
  repeat split.
Defined.

(** ** When the upstream API is called *)

(** Once the checks have passed, the one call is issued whatever the upstream
    collaborator then replies: in the Pages handler for a body that parses to
    a value other than [null], the credential, a prompt chosen for one of the
    three types and a resume that converts to a string, as a missing
    [resumeText] does; in the SDK handlers for the credential, a POST, a
    [resumeText], a [type] and a prompt that could be built. *)
Theorem upstream_is_called_when_checks_pass :
  (forall fetch ctx v chosen resume w,
      pages_ready ctx v chosen resume ->
      calls (snd (Pages.onRequestPost fetch ctx w))
      = (calls w
         ++ [pages_call (Pages.GEMINI_API_KEY (Pages.env ctx)) resume chosen])%list)
  /\ (forall generateContent key req prompt w,
      env_truthy key = true ->
      Vercel.method req = "POST" ->
      validated (Vercel.body req) ->
      prompt_of Vercel.getSystemPrompt (Vercel.body req) = Normal prompt ->
      calls (snd (Vercel.handler generateContent key req w))
      = (calls w ++ [sdk_call key (Vercel.body req) prompt])%list)
  /\ (forall generateContent ctx v prompt w,
      env_truthy (Worker.GEMINI_API_KEY (Worker.env ctx)) = true ->
      Worker.method (Worker.request ctx) = "POST" ->
      Worker.json (Worker.request ctx) = Normal v ->
      validated v ->
      prompt_of Worker.getSystemPrompt v = Normal prompt ->
      calls (snd (Worker.onRequest generateContent ctx w))
      = (calls w ++ [sdk_call (Worker.GEMINI_API_KEY (Worker.env ctx)) v prompt])%list).
Proof.
  split; [| split].
  - intros fetch ctx v chosen resume w [Hjson [Hv [Hkey [Hsel Hres]]]].
    change (post (Pages.onRequestPost fetch ctx) w
              (fun _ w' =>
                 calls w'
                 = (calls w
                    ++ [pages_call (Pages.GEMINI_API_KEY (Pages.env ctx))
                          resume chosen])%list)).
    unfold Pages.onRequestPost, Pages.await_fetch.
    apply post_try_catch, post_bind, post_lift. rewrite Hjson.
    apply post_bind, post_lift. rewrite (destructure_object _ _ Hv).
    cbv beta iota zeta. rewrite (negb_env_truthy_false _ Hkey).
    apply post_bind, post_lift. rewrite Hsel. cbv beta iota.
    destruct chosen as [prompt tools].
    apply post_bind, post_lift. rewrite Hres. cbv beta iota.
    run; reflexivity.
  - intros g key req prompt w Hkey Hm [Hv [Hr Ht]] Hp. unfold prompt_of in Hp.
    change (post (Vercel.handler g key req) w
              (fun _ w' =>
                 calls w' = (calls w ++ [sdk_call key (Vercel.body req) prompt])%list)).
    unfold Vercel.handler.
    rewrite (negb_env_truthy_false _ Hkey), (is_POST _ Hm).
    apply post_bind, post_lift. rewrite (destructure_object _ _ Hv).
    cbv beta iota. rewrite Hr, Ht. cbn [negb].
    unfold Sdk.generate, Sdk.on_error, Sdk.await_generate.
    apply post_try_catch, post_bind, post_lift. rewrite Hp.
    run; reflexivity.
  - intros g ctx v prompt w Hkey Hm Hjson [Hv [Hr Ht]] Hp. unfold prompt_of in Hp.
    change (post (Worker.onRequest g ctx) w
              (fun _ w' =>
                 calls w'
                 = (calls w
                    ++ [sdk_call (Worker.GEMINI_API_KEY (Worker.env ctx)) v prompt])%list)).
    unfold Worker.onRequest.
    rewrite (negb_env_truthy_false _ Hkey), (is_POST _ Hm). cbv beta iota zeta.
    apply post_try_catch, post_bind, post_lift. rewrite Hjson.
    apply post_bind, post_lift. rewrite (destructure_object _ _ Hv).
    cbv beta iota. rewrite Hr, Ht. cbn [negb].
    unfold Sdk.generate, Sdk.on_error, Sdk.await_generate.
    apply post_bind, post_lift. rewrite Hp.
    run; reflexivity.
Qed.

Lemma upstream_is_called_sample :
  calls (snd (Pages.onRequestPost (sample_fetch truncated_result)
                (Pages.mkContext
                   (Pages.mkRequest (Normal (JObj [("type", JStr "critique")])))
                   (Pages.mkEnv (Some "secret"))) start))
  = [pages_call (Some "secret") "undefined" (Pages.critique_prompt, [])].
Proof.
  refine (proj1 upstream_is_called_when_checks_pass
            (sample_fetch truncated_result)
            (Pages.mkContext
               (Pages.mkRequest (Normal (JObj [("type", JStr "critique")])))
               (Pages.mkEnv (Some "secret")))
            (JObj [("type", JStr "critique")]) (Pages.critique_prompt, [])
            "undefined" start _).
  repeat split.
Defined.

(** ** The two SDK handlers side by side *)

Lemma getSystemPrompt_same_but_critique (c1 c2 : string)
  (type location datePosted : JsVal) :
  type <> JStr "critique" ->
  Sdk.getSystemPrompt_with c1 type location datePosted
  = Sdk.getSystemPrompt_with c2 type location datePosted.
Proof.
  intros Hn. unfold Sdk.getSystemPrompt_with.
  destruct (Sdk.filter_string location datePosted) as [fs | e]; [| reflexivity].
  simpl and_then.
  destruct (strict_eq_str type "jobs"); [reflexivity |].
  destruct (strict_eq_str type "critique") eqn:C; [| reflexivity].
  apply strict_eq_str_true in C. contradiction.
Qed.

(** The Vercel and the Worker handler are one handler: given the credential,
    the same method and the same parsed body, neither [null], they answer
    alike and issue the same call, for every type but [critique], whose
    prompt is worded differently in the two files.  They differ in the label
    of their log entries. *)
Theorem Sdk_handlers_agree generateContent key method v w :
  env_truthy key = true ->
  nullish v = false ->
  get v "type" <> JStr "critique" ->
  fst (Vercel.handler generateContent key (Vercel.mkRequest method v) w)
  = fst (Worker.onRequest generateContent
           (Worker.mkContext (Worker.mkRequest method (Normal v)) (Worker.mkEnv key)) w)
  /\ calls (snd (Vercel.handler generateContent key (Vercel.mkRequest method v) w))
     = calls (snd (Worker.onRequest generateContent
                     (Worker.mkContext (Worker.mkRequest method (Normal v))
                        (Worker.mkEnv key)) w)).
Proof.
  intros Hkey Hv Hn. unfold Vercel.handler, Worker.onRequest.
  cbn [Vercel.method Vercel.body Worker.method Worker.json Worker.request Worker.env
       Worker.GEMINI_API_KEY].
  rewrite (negb_env_truthy_false _ Hkey).
  destruct (negb (method =? "POST")); [split; reflexivity |].
  unfold try_catch, bind, lift. rewrite !(destructure_object _ _ Hv). cbv beta iota.
  destruct (negb (truthy (get v "resumeText"))); [split; reflexivity |].
  destruct (negb (truthy (get v "type"))); [split; reflexivity |].
  unfold Vercel.getSystemPrompt, Worker.getSystemPrompt, Sdk.generate.
  rewrite (getSystemPrompt_same_but_critique Vercel.critique_prompt
             Worker.critique_prompt _ _ _ Hn).
  match goal with
  | |- context [match ?run with _ => _ end] => destruct run as [[r | e] w']
  end; split; reflexivity.
Qed.

Lemma Sdk_handlers_agree_sample :
  fst (Vercel.handler (sample_generate (sample_result sample_text_part)) (Some "secret")
         (Vercel.mkRequest "POST" (sample_body "jobs")) start)
  = fst (Worker.onRequest (sample_generate (sample_result sample_text_part))
           (Worker.mkContext (Worker.mkRequest "POST" (Normal (sample_body "jobs")))
              (Worker.mkEnv (Some "secret"))) start)
  /\ calls (snd (Vercel.handler (sample_generate (sample_result sample_text_part))
                   (Some "secret")
                   (Vercel.mkRequest "POST" (sample_body "jobs")) start))
     = calls (snd (Worker.onRequest (sample_generate (sample_result sample_text_part))
                     (Worker.mkContext
                        (Worker.mkRequest "POST" (Normal (sample_body "jobs")))
                        (Worker.mkEnv (Some "secret"))) start)).
Proof.
  apply (Sdk_handlers_agree (sample_generate (sample_result sample_text_part))
           (Some "secret") "POST" (sample_body "jobs") start);
    [reflexivity | reflexivity | discriminate].
Defined.

(** ** The edge cases above, on concrete inputs *)

Lemma collect_sources_fails_sample :
  exists e,
    collect_sources (JObj [("groundingAttributions", JArr [JNull])]) = Throw e.
Proof.
  apply (proj2 (proj1 (collect_sources_fails_iff
                         (JObj [("groundingAttributions", JArr [JNull])])))).
  split; [reflexivity | split; [reflexivity |]].
  intros attributions [= <-]. apply Exists_cons_hd. reflexivity.
Defined.

Lemma Vercel_throws_sample :
  exists e,
    fst (Vercel.handler (sample_generate (plain_result sample_text_part))
           (Some "secret") (Vercel.mkRequest "POST" JUndefined) start)
    = Throw e.
Proof.
  apply (proj2 (proj1 (Vercel_throws_iff_body_absent
                         (sample_generate (plain_result sample_text_part))
                         (Some "secret") (Vercel.mkRequest "POST" JUndefined) start))).
  repeat split.
Defined.

(** A location that is an object with a property named [toString], with a
    date that is a number: the conversion of the location fails first. *)
Lemma getSystemPrompt_fails_sample :
  Vercel.getSystemPrompt (JStr "critique") (JObj [("toString", JNum false "1")])
    (JNum false "7")
  = Throw unprintable.
Proof.
  apply (proj2 (proj1 (getSystemPrompt_fails_iff (JStr "critique")
                         (JObj [("toString", JNum false "1")]) (JNum false "7")
                         unprintable))).
  left. split; reflexivity.
Defined.

(** A result cut short before any part: the Pages extraction answers with
    the placeholder. *)
Lemma extraction_sample :
  Pages.extract truncated_result
  = Normal (mkResponse 200 (success_body placeholder [])).
Proof.
  apply (proj2 (proj2 (extraction_succeeds_iff truncated_result
                         (mkResponse 200 (success_body placeholder []))))).
  split; [reflexivity |]. exists []. split; reflexivity.
Defined.

(** ** A field that does not convert to a string, in the Pages handler *)

Lemma Pages_jobs_prompt_Throw (location datePosted : JsVal) (e : Thrown) :
  Pages.jobs_prompt location datePosted = Throw e -> e = unprintable.
Proof.
  unfold Pages.jobs_prompt.
  destruct (to_string (js_or location (JStr "any"))) as [lt | e1] eqn:Hl.
  - destruct (to_string (js_or datePosted (JStr "any"))) as [dt | e2] eqn:Hd.
    + discriminate.
    + simpl. intros [= <-]. exact (to_string_Throw _ _ Hd).
  - simpl. intros [= <-]. exact (to_string_Throw _ _ Hl).
Qed.

Lemma Pages_contacts_prompt_Throw (location : JsVal) (e : Thrown) :
  Pages.contacts_prompt location = Throw e -> e = unprintable.
Proof.
  unfold Pages.contacts_prompt.
  destruct (to_string (js_or location (JStr "any"))) as [lt | e1] eqn:Hl.
  - discriminate.
  - simpl. intros [= <-]. exact (to_string_Throw _ _ Hl).
Qed.

Lemma Pages_select_prompt_Throw (type location datePosted : JsVal) (e : Thrown) :
  Pages.select_prompt type location datePosted = Throw e ->
  (valid_type type /\ e = unprintable) \/ (~ valid_type type /\ e = invalid_type).
Proof.
  unfold Pages.select_prompt.
  destruct (strict_eq_str type "jobs") eqn:J.
  { apply strict_eq_str_true in J.
    destruct (Pages.jobs_prompt location datePosted) as [p | e0] eqn:Hp;
      [discriminate |].
    simpl. intros [= <-]. left. split; [left; exact J |].
    exact (Pages_jobs_prompt_Throw _ _ _ Hp). }
  destruct (strict_eq_str type "critique") eqn:C; [discriminate |].
  destruct (strict_eq_str type "contacts") eqn:K.
  { apply strict_eq_str_true in K.
    destruct (Pages.contacts_prompt location) as [p | e0] eqn:Hp; [discriminate |].
    simpl. intros [= <-]. left. split; [right; right; exact K |].
    exact (Pages_contacts_prompt_Throw _ _ Hp). }
  intros [= <-]. right. split; [| reflexivity].
  apply strict_eq_str_false in J, C, K. intros [H | [H | H]]; contradiction.
Qed.

(** In the Pages handler a field that does not convert to a string fails the
    request before any upstream call.  For a body that parses to a value
    other than [null] and the credential configured: when the [switch]
    throws, for one of the three types it is because a filter of the prompt
    does not convert, and for any other type it is the error of the invalid
    type; once a prompt is chosen, a resume that does not convert throws.
    Each of these errors is caught, logged and answered 500 with its
    message, and the error of a conversion is the TypeError "Cannot convert
    object to primitive value". *)
Theorem Pages_unconvertible_field_stops_the_request fetch ctx v w :
  Pages.json (Pages.request ctx) = Normal v ->
  nullish v = false ->
  env_truthy (Pages.GEMINI_API_KEY (Pages.env ctx)) = true ->
  (forall e,
      Pages.select_prompt (get v "type") (get v "location") (get v "datePosted")
      = Throw e ->
      Pages.onRequestPost fetch ctx w
      = (Normal (mkResponse 500 (error_body (message e))),
         mkWorld (calls w) (console w ++ [caught_log cloudflare_label e]))
      /\ ((valid_type (get v "type") /\ e = unprintable)
          \/ (~ valid_type (get v "type") /\ e = invalid_type)))
  /\ (forall chosen e,
      Pages.select_prompt (get v "type") (get v "location") (get v "datePosted")
      = Normal chosen ->
      to_string (get v "resumeText") = Throw e ->
      e = unprintable
      /\ Pages.onRequestPost fetch ctx w
         = (Normal (mkResponse 500 (error_body (message unprintable))),
            mkWorld (calls w)
              (console w ++ [caught_log cloudflare_label unprintable]))).
Proof.
  intros Hjson Hv Hkey. split.
  - intros e Hsel. split; [| exact (Pages_select_prompt_Throw _ _ _ _ Hsel)].
    unfold Pages.onRequestPost, try_catch, bind, lift, console_error, ret.
    rewrite Hjson, (destructure_object _ _ Hv). cbv beta iota zeta.
    rewrite (negb_env_truthy_false _ Hkey), Hsel. reflexivity.
  - intros [prompt tools] e Hsel Hres.
    pose proof (to_string_Throw _ _ Hres) as ->. split; [reflexivity |].
    unfold Pages.onRequestPost, try_catch, bind, lift, console_error, ret.
    rewrite Hjson, (destructure_object _ _ Hv). cbv beta iota zeta.
    rewrite (negb_env_truthy_false _ Hkey), Hsel. cbv beta iota zeta.
    rewrite Hres. reflexivity.
Qed.

(** A resume that is an object with a property named [toString]. *)
Lemma Pages_unconvertible_resume_sample :
  Pages.onRequestPost (sample_fetch (plain_result sample_text_part))
    (Pages.mkContext
       (Pages.mkRequest
          (Normal (JObj [("resumeText", JObj [("toString", JNum false "1")]);
                         ("type", JStr "critique")])))
       (Pages.mkEnv (Some "secret"))) start
  = (Normal (mkResponse 500
               (error_body "Cannot convert object to primitive value")),
     mkWorld [] [caught_log cloudflare_label unprintable]).
Proof.
  refine (proj2 (proj2 (Pages_unconvertible_field_stops_the_request
                  (sample_fetch (plain_result sample_text_part))
                  (Pages.mkContext
                     (Pages.mkRequest
                        (Normal (JObj [("resumeText",
                                        JObj [("toString", JNum false "1")]);
                                       ("type", JStr "critique")])))
                     (Pages.mkEnv (Some "secret")))
                  (JObj [("resumeText", JObj [("toString", JNum false "1")]);
                         ("type", JStr "critique")])
                  start eq_refl eq_refl eq_refl)
           (Pages.critique_prompt, []) unprintable eq_refl eq_refl)).
Defined.
